(** * Verification of the invoice validation engine (backend/validar_factura.py)

    The engine is embedded shallowly.  The Python values it receives are
    the values [json.load] produces; text is modelled as byte strings and
    the character classes ([str.strip], [\d], [str.upper]) are the ASCII
    ones; a [float] is an IEEE-754 binary64 number, taken from the
    standard library's [SpecFloat] with [prec = 53] and [emax = 1024]. *)

From Stdlib Require Import ZArith List String Ascii Bool Lia.
From Stdlib Require Import SpecFloat DecimalString DecimalPos.
Import ListNotations.
Open Scope string_scope.
Open Scope Z_scope.

(** ** Text: the [str] methods the engine calls *)

Module PyStr.

Definition chars (s : string) : list ascii := list_ascii_of_string s.
Definition text (l : list ascii) : string := string_of_list_ascii l.

Definition code (c : ascii) : N := N_of_ascii c.

Definition between (lo hi : N) (c : ascii) : bool :=
  (N.leb lo (code c) && N.leb (code c) hi)%bool.

(** [str.isspace] on one ASCII character: TAB LF VT FF CR, FS GS RS US, SPACE. *)
Definition is_space (c : ascii) : bool :=
  (between 9 13 c || between 28 32 c)%bool.

Definition is_digit (c : ascii) : bool := between 48 57 c.
Definition is_upper (c : ascii) : bool := between 65 90 c.
Definition is_lower (c : ascii) : bool := between 97 122 c.
Definition is_alpha (c : ascii) : bool := (is_upper c || is_lower c)%bool.

Fixpoint lstrip_chars (l : list ascii) : list ascii :=
  match l with
  | c :: r => if is_space c then lstrip_chars r else l
  | [] => []
  end.

Definition rstrip_chars (l : list ascii) : list ascii :=
  rev (lstrip_chars (rev l)).

(** [s.strip()] *)
Definition strip (s : string) : string :=
  text (rstrip_chars (lstrip_chars (chars s))).

Definition upper_char (c : ascii) : ascii :=
  if is_lower c then ascii_of_N (code c - 32) else c.
Definition lower_char (c : ascii) : ascii :=
  if is_upper c then ascii_of_N (code c + 32) else c.

(** [s.upper()], [s.lower()] *)
Definition upper (s : string) : string := text (map upper_char (chars s)).
Definition lower (s : string) : string := text (map lower_char (chars s)).

(** [s.count(c)] for a one-character [c] *)
Definition count (c : ascii) (s : string) : Z :=
  Z.of_nat (List.length (filter (Ascii.eqb c) (chars s))).

Fixpoint rfind_from (c : ascii) (l : list ascii) (i : Z) (last : Z) : Z :=
  match l with
  | [] => last
  | d :: r => rfind_from c r (i + 1) (if Ascii.eqb c d then i else last)
  end.

(** [s.rfind(c)]: the highest index of [c], or -1 *)
Definition rfind (c : ascii) (s : string) : Z := rfind_from c (chars s) 0 (-1).

(** [s.replace(c, by)] for a one-character [c] *)
Definition replace (c : ascii) (by_ : string) (s : string) : string :=
  text (flat_map (fun d => if Ascii.eqb c d then chars by_ else [d]) (chars s)).

Fixpoint split_chars (c : ascii) (l : list ascii) (cur : list ascii) : list string :=
  match l with
  | [] => [text (rev cur)]
  | d :: r => if Ascii.eqb c d then text (rev cur) :: split_chars c r []
              else split_chars c r (d :: cur)
  end.

(** [s.split(c)] for a one-character separator *)
Definition split (c : ascii) (s : string) : list string := split_chars c (chars s) [].

(** [len(s)] *)
Definition len (s : string) : Z := Z.of_nat (String.length s).

(** [x in [a, b, ...]] for strings *)
Definition mem (x : string) (l : list string) : bool := existsb (String.eqb x) l.

End PyStr.

(** ** Regular expressions: [re.fullmatch]

    The engine's patterns use literals, classes, [?], [+], [*], grouping
    and [{3}] only, for which [re.fullmatch] decides membership of the whole
    string in the pattern's language; the anchors [^] and [$] add nothing
    under [fullmatch]. *)

Module Re.

Inductive regex : Type :=
| Nothing
| Eps
| Cls (p : ascii -> bool)
| Seq (a b : regex)
| Alt (a b : regex)
| Star (a : regex).

Definition Chr (c : ascii) : regex := Cls (Ascii.eqb c).
Definition Opt (a : regex) : regex := Alt a Eps.
Definition Plus (a : regex) : regex := Seq a (Star a).
Definition digit : regex := Cls PyStr.is_digit.

Fixpoint nullable (r : regex) : bool :=
  match r with
  | Nothing => false
  | Eps => true
  | Cls _ => false
  | Seq a b => nullable a && nullable b
  | Alt a b => nullable a || nullable b
  | Star _ => true
  end.

Fixpoint deriv (c : ascii) (r : regex) : regex :=
  match r with
  | Nothing => Nothing
  | Eps => Nothing
  | Cls p => if p c then Eps else Nothing
  | Seq a b =>
      if nullable a then Alt (Seq (deriv c a) b) (deriv c b)
      else Seq (deriv c a) b
  | Alt a b => Alt (deriv c a) (deriv c b)
  | Star a => Seq (deriv c a) (Star a)
  end.

Fixpoint matches (r : regex) (l : list ascii) : bool :=
  match l with
  | [] => nullable r
  | c :: l' => matches (deriv c r) l'
  end.

Definition fullmatch (r : regex) (s : string) : bool := matches r (PyStr.chars s).

End Re.

(** ** Floating point: Python's [float] is binary64 *)

Module PyFloat.

Definition float : Type := spec_float.

Definition prec : Z := 53.
Definition emax : Z := 1024.

Definition add : float -> float -> float := SFadd prec emax.
Definition sub : float -> float -> float := SFsub prec emax.
Definition mul : float -> float -> float := SFmul prec emax.
Definition abs : float -> float := SFabs.
(** [x > y] *)
Definition gt (x y : float) : bool := SFltb y x.

Definition zero : float := S754_zero false.

(** The binary64 number nearest to [p / q] (ties to even), with sign [s]. *)
Definition of_ratio (s : bool) (p q : positive) : float :=
  let '(mz, ez, lz) := SFdiv_core_binary prec emax (Zpos p) 0 (Zpos q) 0 in
  binary_round_aux prec emax s mz ez lz.

(** The binary64 number nearest to [m * 10 ^ e], for [0 <= m]: what
    [strtod] returns on a decimal numeral, and the value of a decimal
    literal of the source such as [0.01]. *)
Definition of_decimal (s : bool) (m e : Z) : float :=
  match m with
  | Zpos p =>
      if 0 <=? e then of_ratio s (p * Z.to_pos (10 ^ e)) 1
      else of_ratio s p (Z.to_pos (10 ^ (- e)))
  | _ => S754_zero s
  end.

(** [float(n)] for an [int] small enough to be exact is [of_decimal _ |n| 0]. *)

(** Nearest integer to [p / q], ties to even, for [0 <= p], [0 < q]. *)
Definition round_half_even (p q : Z) : Z :=
  let d := p / q in
  let r := p mod q in
  match 2 * r ?= q with
  | Lt => d
  | Gt => d + 1
  | Eq => if Z.even d then d else d + 1
  end.

(** [|x| * 100] rounded to an integer: the digits of [x] correctly rounded
    to two decimals. *)
Definition hundredths (m : positive) (e : Z) : Z :=
  if 0 <=? e then 100 * Zpos m * 2 ^ e
  else round_half_even (100 * Zpos m) (2 ^ (- e)).

(** [round(x, 2)]: the exact value of [x] is rounded to two decimals, ties
    to even, and the decimal result is converted back; infinities and NaN
    round to themselves. *)
Definition round2 (x : float) : float :=
  match x with
  | S754_finite s m e => if 0 <=? e then x else of_decimal s (hundredths m e) (-2)
  | _ => x
  end.

(** [int(x)]: truncation toward zero.  Python raises [OverflowError] on an
    infinity and [ValueError] on NaN, which [None] stands for here; the
    caller maps it to the exception. *)
Definition exact_is_int_multiple (m : positive) (e : Z) : bool :=
  if 0 <=? e then true else (Zpos m mod 2 ^ (- e) =? 0).

Definition truncate (x : float) : Z :=
  match x with
  | S754_finite s m e =>
      let a := if 0 <=? e then Zpos m * 2 ^ e else Zpos m / 2 ^ (- e) in
      if s then - a else a
  | _ => 0
  end.

(** [x == n] for a float [x] and an int [n]: Python compares the exact values. *)
Definition eq_int (x : float) (n : Z) : bool :=
  match x with
  | S754_zero _ => n =? 0
  | S754_finite s m e =>
      let a := if s then Zneg m else Zpos m in
      if 0 <=? e then n =? a * 2 ^ e else n * 2 ^ (- e) =? a
  | _ => false
  end.

(** *** [float(s)] on text *)

Fixpoint span_digits (l : list ascii) : list ascii * list ascii :=
  match l with
  | c :: r =>
      if PyStr.is_digit c then let '(d, t) := span_digits r in (c :: d, t)
      else ([], l)
  | [] => ([], [])
  end.

Definition digits_value (l : list ascii) : Z :=
  fold_left (fun acc c => 10 * acc + (Z.of_N (PyStr.code c) - 48)) l 0.

Definition parse_sign (l : list ascii) : bool * list ascii :=
  match l with
  | "-"%char :: r => (true, r)
  | "+"%char :: r => (false, r)
  | _ => (false, l)
  end.

(** Underscores may only stand between two digits; they are removed. *)
Fixpoint drop_underscores (prev : ascii) (l : list ascii) : option (list ascii) :=
  match l with
  | [] => if Ascii.eqb prev "_" then None else Some []
  | c :: r =>
      if Ascii.eqb c "_" then
        if PyStr.is_digit prev then drop_underscores c r else None
      else if Ascii.eqb prev "_" && negb (PyStr.is_digit c) then None
      else option_map (cons c) (drop_underscores c r)
  end.

Definition inf_or_nan (l : list ascii) : option float :=
  let '(neg, r) := parse_sign l in
  let w := PyStr.lower (PyStr.text r) in
  if String.eqb w "inf" || String.eqb w "infinity" then Some (S754_infinity neg)
  else if String.eqb w "nan" then Some S754_nan
  else None.

Definition is_exp_mark (c : ascii) : bool := Ascii.eqb c "e" || Ascii.eqb c "E".

Definition parse_decimal (l : list ascii) : option float :=
  let '(neg, l1) := parse_sign l in
  let '(ip, l2) := span_digits l1 in
  let '(fp, l3) :=
    match l2 with
    | "."%char :: r => span_digits r
    | _ => ([], l2)
    end in
  match (ip ++ fp)%list with
  | [] => None
  | ds =>
      let mant := digits_value ds in
      let shift := Z.of_nat (List.length fp) in
      match l3 with
      | [] => Some (of_decimal neg mant (- shift))
      | c :: l4 =>
          if is_exp_mark c then
            let '(eneg, l5) := parse_sign l4 in
            match span_digits l5 with
            | ((_ :: _) as ed, []) =>
                let ev := digits_value ed in
                Some (of_decimal neg mant ((if eneg then - ev else ev) - shift))
            | _ => None
            end
          else None
      end
  end.

(** [float(s)] for a [str]; [None] is [ValueError]. *)
Definition of_string (s : string) : option float :=
  let l := PyStr.chars s in
  let cleaned :=
    if existsb (Ascii.eqb "_") l then drop_underscores "000" l else Some l in
  match cleaned with
  | None => None
  | Some l1 =>
      let l2 := PyStr.rstrip_chars (PyStr.lstrip_chars l1) in
      match inf_or_nan l2 with
      | Some x => Some x
      | None => parse_decimal l2
      end
  end.

(** *** Floats to text *)

Definition str_of_Z (z : Z) : string := NilZero.string_of_int (Z.to_int z).

Definition sign_text (s : bool) : string := if s then "-" else "".

(** [format(x, '.2f')] *)
Definition fmt_2f (x : float) : string :=
  match x with
  | S754_nan => "nan"
  | S754_infinity s => sign_text s ++ "inf"
  | S754_zero s => sign_text s ++ "0.00"
  | S754_finite s m e =>
      let n := hundredths m e in
      let f := n mod 100 in
      sign_text s ++ str_of_Z (n / 100) ++ "."
        ++ (if f <? 10 then "0" else "") ++ str_of_Z f
  end.

(** [10 ^ k <= p / q] *)
Definition pow10_le (k : Z) (p q : Z) : bool :=
  if 0 <=? k then 10 ^ k * q <=? p else q <=? p * 10 ^ (- k).

Fixpoint climb (fuel : nat) (k : Z) (p q : Z) : Z :=
  match fuel with
  | O => k
  | S f => if pow10_le (k + 1) p q then climb f (k + 1) p q else k
  end.

(** [floor (log10 (p / q))] for positive [p], [q] *)
Definition ilog10 (p q : Z) : Z :=
  let b := Zdigits2 p - Zdigits2 q in
  climb 8 ((b - 1) * 30103 / 100000 - 1) p q.

(** The shortest decimal numeral [d * 10 ^ k] that [float] reads back as
    [m * 2 ^ e], nearest to it among those of its length: the digits of
    [repr]. *)
Definition roundtrips (m : positive) (e : Z) (d k : Z) : bool :=
  SFeqb (of_decimal false d k) (S754_finite false m e).

Fixpoint shortest_from (fuel : nat) (n : Z) (m : positive) (e : Z) (p q lg : Z)
  : Z * Z :=
  let k := lg - (n - 1) in
  let num := if 0 <=? k then p else p * 10 ^ (- k) in
  let den := if 0 <=? k then q * 10 ^ k else q in
  let lo := num / den in
  let hi := lo + 1 in
  let lo_ok := roundtrips m e lo k in
  let hi_ok := roundtrips m e hi k in
  let nearer :=
    match 2 * (num mod den) ?= den with
    | Lt => lo
    | Gt => hi
    | Eq => if Z.even lo then lo else hi
    end in
  match fuel with
  | O => (nearer, k)
  | S f =>
      if lo_ok && hi_ok then (nearer, k)
      else if lo_ok then (lo, k)
      else if hi_ok then (hi, k)
      else shortest_from f (n + 1) m e p q lg
  end.

Fixpoint drop_zeros (fuel : nat) (d k : Z) : Z * Z :=
  match fuel with
  | O => (d, k)
  | S f => if (d mod 10 =? 0) && negb (d =? 0) then drop_zeros f (d / 10) (k + 1) else (d, k)
  end.

Definition shortest_digits (m : positive) (e : Z) : Z * Z :=
  let p := if 0 <=? e then Zpos m * 2 ^ e else Zpos m in
  let q := if 0 <=? e then 1 else 2 ^ (- e) in
  let '(d, k) := shortest_from 16 1 m e p q (ilog10 p q) in
  drop_zeros 400 d k.

Definition zeros (n : Z) : string := PyStr.text (repeat "0"%char (Z.to_nat n)).

(** [repr(x)], which is also [str(x)] *)
Definition repr (x : float) : string :=
  match x with
  | S754_nan => "nan"
  | S754_infinity s => sign_text s ++ "inf"
  | S754_zero s => sign_text s ++ "0.0"
  | S754_finite s m e =>
      let '(d, k) := shortest_digits m e in
      let ds := str_of_Z d in
      let n := PyStr.len ds in
      let decpt := k + n in
      sign_text s ++
      (if (decpt <=? -4) || (16 <? decpt) then
         let x10 := decpt - 1 in
         let ex := str_of_Z (Z.abs x10) in
         substring 0 1 ds
           ++ (if 1 <? n then "." ++ substring 1 (Z.to_nat (n - 1)) ds else "")
           ++ "e" ++ (if x10 <? 0 then "-" else "+")
           ++ (if Z.abs x10 <? 10 then "0" else "") ++ ex
       else if decpt <=? 0 then "0." ++ zeros (- decpt) ++ ds
       else if n <=? decpt then ds ++ zeros (decpt - n) ++ ".0"
       else substring 0 (Z.to_nat decpt) ds ++ "."
              ++ substring (Z.to_nat decpt) (Z.to_nat (n - decpt)) ds)
  end.

End PyFloat.

(** ** Values, exceptions and the built-ins the engine calls *)

Module Py.

Import PyFloat.

Set Warnings "-register-all".

(** What [json.load] produces.  A [dict] is kept as its items in insertion
    order; [json.load] leaves no duplicate key and [dict_get] reads the first
    binding. *)
Inductive value : Type :=
| VNone
| VBool (b : bool)
| VInt (n : Z)
| VFloat (x : float)
| VStr (s : string)
| VList (l : list value)
| VDict (d : list (string * value)).

Definition dict : Type := list (string * value).

Inductive exn : Type :=
| AttributeError
| TypeError
| ValueError
| OverflowError
| UnboundLocalError.

Inductive result (A : Type) : Type :=
| Ok (a : A)
| Raise (e : exn).
Arguments Ok {A} a.
Arguments Raise {A} e.

Definition bind {A B : Type} (c : result A) (k : A -> result B) : result B :=
  match c with
  | Ok a => k a
  | Raise e => Raise e
  end.

(** [try: c except: h] with a bare [except] *)
Definition try_except {A : Type} (c : result A) (h : A) : A :=
  match c with
  | Ok a => a
  | Raise _ => h
  end.

Definition returns {A : Type} (c : result A) : Prop := exists a, c = Ok a.

(** [bool(v)] *)
Definition truthy (v : value) : bool :=
  match v with
  | VNone => false
  | VBool b => b
  | VInt n => negb (n =? 0)
  | VFloat x => negb (SFeqb x zero)
  | VStr s => negb (String.eqb s "")
  | VList l => match l with [] => false | _ => true end
  | VDict d => match d with [] => false | _ => true end
  end.

(** [a or b] *)
Definition or_ (a b : value) : value := if truthy a then a else b.

Definition is_none (v : value) : bool :=
  match v with VNone => true | _ => false end.

(** *** Dictionaries *)

Fixpoint dict_find (d : dict) (k : string) : option value :=
  match d with
  | [] => None
  | (k', v) :: r => if String.eqb k k' then Some v else dict_find r k
  end.

(** [k in d] *)
Definition dict_has (d : dict) (k : string) : bool :=
  match dict_find d k with Some _ => true | None => false end.

(** [d.get(k, default)] and [d.get(k)] *)
Definition dict_get_or (d : dict) (k : string) (default : value) : value :=
  match dict_find d k with Some v => v | None => default end.
Definition dict_get (d : dict) (k : string) : value := dict_get_or d k VNone.

(** [d[k]] on a key that is present *)
Definition dict_item (d : dict) (k : string) : value := dict_get d k.

(** [d[k] = v]: an existing key keeps its place *)
Fixpoint dict_set (d : dict) (k : string) (v : value) : dict :=
  match d with
  | [] => [(k, v)]
  | (k', v') :: r =>
      if String.eqb k k' then (k, v) :: r else (k', v') :: dict_set r k v
  end.

(** [v.get(k)]: only a [dict] has the method *)
Definition get (v : value) (k : string) : result value :=
  match v with
  | VDict d => Ok (dict_get d k)
  | _ => Raise AttributeError
  end.

(** *** [str(v)] *)

Definition hex_digit (n : N) : ascii :=
  ascii_of_N (if N.ltb n 10 then 48 + n else 87 + n).

Definition escape_char (quote : ascii) (c : ascii) : list ascii :=
  if Ascii.eqb c quote || Ascii.eqb c "\" then ["\"%char; c]
  else if Ascii.eqb c "009" then ["\"; "t"]%char
  else if Ascii.eqb c "010" then ["\"; "n"]%char
  else if Ascii.eqb c "013" then ["\"; "r"]%char
  else if N.ltb (PyStr.code c) 32 || N.eqb (PyStr.code c) 127 then
    ["\"; "x"; hex_digit (PyStr.code c / 16); hex_digit (PyStr.code c mod 16)]%char
  else [c].

Definition double_quote : ascii := "034".

(** [repr(s)] for a [str] *)
Definition repr_str (s : string) : string :=
  let l := PyStr.chars s in
  let quote :=
    if existsb (Ascii.eqb "'") l && negb (existsb (Ascii.eqb double_quote) l)
    then double_quote else "'"%char in
  PyStr.text (quote :: flat_map (escape_char quote) l ++ [quote])%list.

Fixpoint join (sep : string) (l : list string) : string :=
  match l with
  | [] => ""
  | [a] => a
  | a :: r => a ++ sep ++ join sep r
  end.

Fixpoint repr (v : value) : string :=
  match v with
  | VNone => "None"
  | VBool b => if b then "True" else "False"
  | VInt n => str_of_Z n
  | VFloat x => PyFloat.repr x
  | VStr s => repr_str s
  | VList l => "[" ++ join ", " (map repr l) ++ "]"
  | VDict d =>
      "{" ++ join ", " (map (fun kv => let '(k, w) := kv in repr_str k ++ ": " ++ repr w) d)
          ++ "}"
  end.

Definition str (v : value) : string :=
  match v with
  | VStr s => s
  | _ => repr v
  end.

(** [enumerate(v, start=1)]: the elements of a list, the keys of a dict,
    the characters of a string; anything else is not iterable. *)
Definition iterate (v : value) : result (list value) :=
  match v with
  | VList l => Ok l
  | VDict d => Ok (map (fun kv => VStr (fst kv)) d)
  | VStr s => Ok (map (fun c => VStr (String c EmptyString)) (PyStr.chars s))
  | _ => Raise TypeError
  end.

(** [int(x)] for a float *)
Definition int_of_float (x : float) : result Z :=
  match x with
  | S754_infinity _ => Raise OverflowError
  | S754_nan => Raise ValueError
  | _ => Ok (truncate x)
  end.

End Py.

Declare Scope py_scope.
Delimit Scope py_scope with py.
Notation "x <- c ;; k" := (Py.bind c (fun x => k))
  (at level 61, c at next level, right associativity) : py_scope.

(** ** [datetime.strptime] for the directives [%d], [%m], [%Y]

    The format is turned into a regular expression which is matched at the
    start of the text, alternatives tried in order; the match must reach
    the end of the text and the fields must name a day of the calendar. *)

Module PyDate.

Import PyStr.

Inductive token : Type :=
| Day
| Month
| Year
| Literal (c : ascii).

Fixpoint compile (fmt : list ascii) : list token :=
  match fmt with
  | "%"%char :: "d"%char :: r => Day :: compile r
  | "%"%char :: "m"%char :: r => Month :: compile r
  | "%"%char :: "Y"%char :: r => Year :: compile r
  | c :: r => Literal c :: compile r
  | [] => []
  end.

Record fields : Type := { year : Z; month : Z; day : Z }.

Definition digit_val (c : ascii) : Z := Z.of_N (code c) - 48.
Definition two (a b : ascii) : Z := 10 * digit_val a + digit_val b.

(** One alternative of a directive: the number it reads and what is left. *)
Definition alt2 (pa pb : ascii -> bool) (l : list ascii) : list (Z * list ascii) :=
  match l with
  | a :: b :: r => if pa a && pb b then [(two a b, r)] else []
  | _ => []
  end.
Definition alt1 (pa : ascii -> bool) (l : list ascii) : list (Z * list ascii) :=
  match l with
  | a :: r => if pa a then [(digit_val a, r)] else []
  | _ => []
  end.

Definition is_nonzero_digit : ascii -> bool := between 49 57.

(** [3[0-1]|[1-2]\d|0[1-9]|[1-9]| [1-9]] *)
Definition day_alternatives (l : list ascii) : list (Z * list ascii) :=
  (alt2 (Ascii.eqb "3") (between 48 49) l
   ++ alt2 (between 49 50) is_digit l
   ++ alt2 (Ascii.eqb "0") is_nonzero_digit l
   ++ alt1 is_nonzero_digit l
   ++ match l with
      | " "%char :: b :: r => if is_nonzero_digit b then [(digit_val b, r)] else []
      | _ => []
      end)%list.

(** [1[0-2]|0[1-9]|[1-9]] *)
Definition month_alternatives (l : list ascii) : list (Z * list ascii) :=
  (alt2 (Ascii.eqb "1") (between 48 50) l
   ++ alt2 (Ascii.eqb "0") is_nonzero_digit l
   ++ alt1 is_nonzero_digit l)%list.

(** [\d\d\d\d] *)
Definition year_alternatives (l : list ascii) : list (Z * list ascii) :=
  match l with
  | a :: b :: c :: d :: r =>
      if is_digit a && is_digit b && is_digit c && is_digit d
      then [(100 * two a b + two c d, r)] else []
  | _ => []
  end.

(** All matches of the expression at the start of [l], in the order a
    backtracking matcher finds them. *)
Fixpoint matches (ts : list token) (f : fields) (l : list ascii)
  : list (fields * list ascii) :=
  match ts with
  | [] => [(f, l)]
  | Day :: ts' =>
      flat_map (fun '(n, r) => matches ts' {| year := year f; month := month f; day := n |} r)
               (day_alternatives l)
  | Month :: ts' =>
      flat_map (fun '(n, r) => matches ts' {| year := year f; month := n; day := day f |} r)
               (month_alternatives l)
  | Year :: ts' =>
      flat_map (fun '(n, r) => matches ts' {| year := n; month := month f; day := day f |} r)
               (year_alternatives l)
  | Literal c :: ts' =>
      match l with
      | a :: r => if Ascii.eqb (lower_char a) (lower_char c) then matches ts' f r else []
      | [] => []
      end
  end.

Definition is_leap (y : Z) : bool :=
  (y mod 4 =? 0) && (negb (y mod 100 =? 0) || (y mod 400 =? 0)).

Definition days_in_month (y m : Z) : Z :=
  if m =? 2 then (if is_leap y then 29 else 28)
  else if (m =? 4) || (m =? 6) || (m =? 9) || (m =? 11) then 30
  else 31.

(** [date(y, m, d)] exists *)
Definition valid_date (f : fields) : bool :=
  (1 <=? year f) && (year f <=? 9999) && (1 <=? month f) && (month f <=? 12)
  && (1 <=? day f) && (day f <=? days_in_month (year f) (month f)).

(** [datetime.strptime(s, fmt)] returns, rather than raising [ValueError] *)
Definition strptime_ok (s fmt : string) : bool :=
  match matches (compile (chars fmt)) {| year := 1900; month := 1; day := 1 |} (chars s) with
  | (f, []) :: _ => valid_date f
  | _ => false
  end.

End PyDate.

(** ** The engine: backend/validar_factura.py *)

Module Engine.

Import PyStr PyFloat Py.
Local Open Scope py_scope.
Local Open Scope bool_scope.

(** One entry of the report: [{"campo": ..., "motivo": ..., "sugerencia": ...}] *)
Record error : Type := { campo : string; motivo : string; sugerencia : string }.

(** *** parse_numeric *)

(** [-?\d+] *)
Definition re_entero : Re.regex := Re.Seq (Re.Opt (Re.Chr "-")) (Re.Plus Re.digit).

(** [float(s_clean)] under [try: ... except: return None] *)
Definition float_or_none (s : string) : option float := of_string s.

Definition parse_numeric (num_str : value) : option float :=
  match num_str with
  | VNone => None
  | _ =>
      let s := strip (str num_str) in
      if String.eqb s "" then None
      else
        let dot_count := count "." s in
        let comma_count := count "," s in
        if (comma_count >? 0) && (dot_count >? 0) then
          let last_dot := rfind "." s in
          let last_comma := rfind "," s in
          let s_clean :=
            if last_comma >? last_dot then replace "," "." (replace "." "" s)
            else replace "," "" s in
          float_or_none s_clean
        else if (comma_count >? 0) && (dot_count =? 0) then
          let parts := split "," s in
          let s_clean :=
            match parts with
            | [int_part; frac_part] =>
                if len frac_part <=? 2 then replace "," "." s
                else replace "," "" s
            | _ => replace "," "" s
            end in
          float_or_none s_clean
        else if (dot_count >? 0) && (comma_count =? 0) then float_or_none s
        else if Re.fullmatch re_entero s then float_or_none s
        else None
  end.

(** *** es_fecha_valida *)

Definition formatos : list string :=
  ["%d/%m/%Y"; "%m/%d/%Y"; "%Y-%m-%d"; "%d-%m-%Y"; "%m-%d-%Y"].

(** [fecha_str.strip()] exists for [str] only: any other value that is not
    [None] raises [AttributeError]. *)
Definition es_fecha_valida (fecha_str : value) : result bool :=
  match fecha_str with
  | VNone => Ok false
  | VStr t =>
      let s := strip t in
      if String.eqb s "" then Ok false
      else Ok (existsb (PyDate.strptime_ok s) formatos)
  | _ => Raise AttributeError
  end.

(** *** esta_vacio (the same helper in both rule sets) *)

Definition esta_vacio (valor : value) : bool :=
  match valor with
  | VNone => true
  | VStr s =>
      String.eqb (strip s) "" || mem (lower (strip s)) ["n/a"; "na"; "none"]
  | _ => false
  end.

(** [if esta_vacio(valor): errores.append(e)] *)
Definition si_vacio (valor : value) (e : error) : list error :=
  if esta_vacio valor then [e] else [].

(** *** validar_campos_principales *)

Definition incoterms_validos : list string :=
  ["EXW"; "FCA"; "FAS"; "FOB"; "CFR"; "CIF"; "CPT"; "CIP"; "DAP"; "DPU"; "DDP"; "DAT"].

(** [^[A-Za-z]{3}$] *)
Definition re_moneda : Re.regex :=
  Re.Seq (Re.Cls is_alpha) (Re.Seq (Re.Cls is_alpha) (Re.Cls is_alpha)).

Definition falta_exp_nombre : error :=
  {| campo := "Exportador - Nombre";
     motivo := "No se proporcionó el nombre o razón social del exportador.";
     sugerencia := "Incluya el nombre completo o la razón social del exportador." |}.
Definition falta_exp_dir : error :=
  {| campo := "Exportador - Dirección";
     motivo := "No se proporcionó la dirección del exportador.";
     sugerencia := "Incluya la dirección (ciudad, país) completa del exportador." |}.
Definition falta_exp_id : error :=
  {| campo := "Exportador - NIT/ID";
     motivo := "No se proporcionó la identificación fiscal (NIT o equivalente) del exportador.";
     sugerencia := "Incluya el NIT del exportador o su número de identificación fiscal extranjero." |}.
Definition falta_imp_nombre : error :=
  {| campo := "Importador - Nombre";
     motivo := "No se proporcionó el nombre o razón social del importador.";
     sugerencia := "Incluya el nombre completo o la razón social del importador." |}.
Definition falta_imp_dir : error :=
  {| campo := "Importador - Dirección";
     motivo := "No se proporcionó la dirección del importador.";
     sugerencia := "Incluya la dirección (ciudad, país) completa del importador." |}.
Definition falta_imp_id : error :=
  {| campo := "Importador - NIT/ID";
     motivo := "No se proporcionó la identificación fiscal (NIT o equivalente) del importador.";
     sugerencia := "Incluya el NIT del importador (si es en Colombia) o su identificación fiscal en el exterior." |}.
Definition falta_num_fact : error :=
  {| campo := "Número de Factura";
     motivo := "No se proporcionó el número de la factura comercial.";
     sugerencia := "Incluya el número o código identificador de la factura." |}.
Definition falta_fecha_fact : error :=
  {| campo := "Fecha de Factura";
     motivo := "No se proporcionó la fecha de expedición de la factura.";
     sugerencia := "Incluya la fecha de emisión de la factura en formato DD/MM/AAAA." |}.
Definition fecha_invalida (fecha_fact : value) : error :=
  {| campo := "Fecha de Factura";
     motivo := "El formato de la fecha '" ++ str fecha_fact ++ "' no es válido.";
     sugerencia := "Use un formato de fecha válido, por ejemplo DD/MM/AAAA." |}.
Definition falta_incoterm : error :=
  {| campo := "Incoterm";
     motivo := "No se especificó el Incoterm (término de entrega) de la transacción.";
     sugerencia := "Incluya el Incoterm acordado (por ejemplo FOB, CIF, CIP), junto con el lugar pactado." |}.
Definition incoterm_no_reconocido (incoterm : value) : error :=
  {| campo := "Incoterm";
     motivo := "El Incoterm '" ++ str incoterm ++ "' no es reconocido.";
     sugerencia := "Verifique el Incoterm. Debe ser uno de: EXW, FCA, FAS, FOB, CFR, CIF, CPT, CIP, DAP, DPU, DDP, etc." |}.
Definition falta_puerto_carga : error :=
  {| campo := "Puerto de Carga";
     motivo := "No se especificó el puerto o lugar de carga (embarque) de la mercancía.";
     sugerencia := "Indique el puerto o lugar de origen desde donde se embarca la mercancía." |}.
Definition falta_puerto_desc : error :=
  {| campo := "Puerto de Descarga";
     motivo := "No se especificó el puerto o lugar de descarga/destino de la mercancía.";
     sugerencia := "Indique el puerto o lugar de destino donde llegará la mercancía." |}.
Definition falta_origen : error :=
  {| campo := "País de Origen";
     motivo := "No se indicó el país de origen de la mercancía.";
     sugerencia := "Especifique el país de origen de las mercancías listadas en la factura." |}.
Definition falta_pago : error :=
  {| campo := "Condiciones de Pago";
     motivo := "No se indicaron las condiciones de pago de la factura.";
     sugerencia := "Indique las condiciones o plazo de pago acordados (por ejemplo, pago a 30 días, contra entrega, etc.)." |}.
Definition falta_moneda : error :=
  {| campo := "Moneda";
     motivo := "No se especificó la moneda en que está expresada la factura.";
     sugerencia := "Indique la moneda de la transacción (por ejemplo USD, EUR, COP)." |}.
Definition moneda_invalida (moneda : value) : error :=
  {| campo := "Moneda";
     motivo := "El valor '" ++ str moneda ++ "' no parece un código de moneda válido.";
     sugerencia := "Use el código de moneda de tres letras (p.ej. USD, EUR, COP) correspondiente a la divisa de la factura." |}.
Definition falta_valor_total : error :=
  {| campo := "Valor Total";
     motivo := "No se indicó el valor total de la factura.";
     sugerencia := "Incluya el valor total de la factura (suma de todos los ítems, en la moneda indicada)." |}.
Definition valor_total_invalido (valor_total : value) : error :=
  {| campo := "Valor Total";
     motivo := "El valor total '" ++ str valor_total ++ "' no es un número válido.";
     sugerencia := "Asegúrese de usar solo dígitos y punto/coma decimal en el valor total (ej: 12345.67)." |}.

(** The four statements with an [else] branch; each returns what it appends
    to [errores]. *)
Definition regla_fecha (fecha_fact : value) : result (list error) :=
  if esta_vacio fecha_fact then Ok [falta_fecha_fact]
  else
    valida <- es_fecha_valida fecha_fact ;;
    Ok (if negb valida then [fecha_invalida fecha_fact] else []).

Definition regla_incoterm (incoterm : value) : list error :=
  if esta_vacio incoterm then [falta_incoterm]
  else
    let incoterm_code := upper (strip (str incoterm)) in
    if negb (mem incoterm_code incoterms_validos) then [incoterm_no_reconocido incoterm]
    else [].

Definition regla_moneda (moneda : value) : list error :=
  if esta_vacio moneda then [falta_moneda]
  else
    let moneda_code := strip (str moneda) in
    if negb (Re.fullmatch re_moneda moneda_code) then [moneda_invalida moneda]
    else [].

Definition regla_valor_total (valor_total : value) : list error :=
  if esta_vacio valor_total then [falta_valor_total]
  else
    match parse_numeric valor_total with
    | None => [valor_total_invalido valor_total]
    | Some _ => []
    end.

(** [errores] starts empty and every statement appends to it, so the list
    returned is what the statements append, in program order. *)
Definition validar_campos_principales (campos : value) : result (list error) :=
  exp_nombre <- get campos "Supplier" ;;
  exp_dir <- get campos "SupplierAddress" ;;
  exp_id <- get campos "SupplierTaxID" ;;
  imp_nombre <- get campos "Customer" ;;
  imp_dir <- get campos "CustomerAddress" ;;
  imp_id <- get campos "CustomerTaxID" ;;
  num_fact <- get campos "InvoiceNumber" ;;
  fecha_fact <- get campos "InvoiceDate" ;;
  incoterm <- get campos "Incoterm" ;;
  puerto_carga <- get campos "PortOfLoading" ;;
  puerto_desc <- get campos "PortOfDischarge" ;;
  origen <- get campos "CountryOfOrigin" ;;
  pago <- get campos "PaymentTerms" ;;
  moneda <- get campos "Currency" ;;
  valor_total <- get campos "TotalInvoiceValue" ;;
  e_fecha <- regla_fecha fecha_fact ;;
  Ok (si_vacio exp_nombre falta_exp_nombre
      ++ si_vacio exp_dir falta_exp_dir
      ++ si_vacio exp_id falta_exp_id
      ++ si_vacio imp_nombre falta_imp_nombre
      ++ si_vacio imp_dir falta_imp_dir
      ++ si_vacio imp_id falta_imp_id
      ++ si_vacio num_fact falta_num_fact
      ++ e_fecha
      ++ regla_incoterm incoterm
      ++ si_vacio puerto_carga falta_puerto_carga
      ++ si_vacio puerto_desc falta_puerto_desc
      ++ si_vacio origen falta_origen
      ++ si_vacio pago falta_pago
      ++ regla_moneda moneda
      ++ regla_valor_total valor_total)%list.

(** *** validar_items *)

(** [^\d+(\.\d+)*$] and [^\d+$] *)
Definition re_hs_grupos : Re.regex :=
  Re.Seq (Re.Plus Re.digit) (Re.Star (Re.Seq (Re.Chr ".") (Re.Plus Re.digit))).
Definition re_digitos : Re.regex := Re.Plus Re.digit.

(** The literal [0.01] *)
Definition f_0_01 : float := of_decimal false 1 (-2).

(** A local variable of [validar_items] that is assigned inside the loop
    body only: it is unbound until its first assignment and then keeps its
    last value, from one iteration to the next. *)
Inductive local : Type :=
| Unbound
| Bound (v : option float).

(** ['x' in locals()] *)
Definition in_locals (x : local) : bool :=
  match x with Unbound => false | Bound _ => true end.

(** Reading [x] *)
Definition read (x : local) : result (option float) :=
  match x with
  | Unbound => Raise UnboundLocalError
  | Bound v => Ok v
  end.

(** Reading [x] as an operand of [+] or [*] *)
Definition read_float (x : local) : result float :=
  v <- read x ;;
  match v with
  | Some f => Ok f
  | None => Raise TypeError
  end.

Definition is_not_none (v : option float) : bool :=
  match v with Some _ => true | None => false end.

(** [a and b], where [b] is evaluated only when [a] holds *)
Definition and_then (a : bool) (b : result bool) : result bool :=
  if a then b else Ok false.

(** What [validar_items] carries through the loop. *)
Record estado : Type := {
  errores : list error;
  suma_items : float;
  qty_val : local;
  price_val : local;
  subtotal_val : local
}.

Definition estado_inicial : estado :=
  {| errores := []; suma_items := zero;
     qty_val := Unbound; price_val := Unbound; subtotal_val := Unbound |}.

Definition producto (idx : Z) : string := str_of_Z idx.

Definition falta_desc (idx : Z) : error :=
  {| campo := "Descripción (Producto " ++ producto idx ++ ")";
     motivo := "No se proporcionó la descripción del producto.";
     sugerencia := "Incluya una descripción detallada para el producto " ++ producto idx ++ "." |}.
Definition falta_qty (idx : Z) : error :=
  {| campo := "Cantidad (Producto " ++ producto idx ++ ")";
     motivo := "No se proporcionó la cantidad del producto.";
     sugerencia := "Incluya la cantidad del producto " ++ producto idx ++ " en la unidad indicada." |}.
Definition qty_invalida (idx : Z) (qty : value) : error :=
  {| campo := "Cantidad (Producto " ++ producto idx ++ ")";
     motivo := "La cantidad '" ++ str qty ++ "' del producto " ++ producto idx ++ " no es numérica.";
     sugerencia := "Indique una cantidad numérica (solo dígitos, puede incluir decimales si aplica)." |}.
Definition falta_unit (idx : Z) : error :=
  {| campo := "Unidad (Producto " ++ producto idx ++ ")";
     motivo := "No se indicó la unidad de medida del producto.";
     sugerencia := "Incluya la unidad de medida (ej. Kg, piezas, cajas) para el producto " ++ producto idx ++ "." |}.
Definition falta_price (idx : Z) : error :=
  {| campo := "Precio Unitario (Producto " ++ producto idx ++ ")";
     motivo := "No se proporcionó el precio unitario del producto.";
     sugerencia := "Incluya el precio unitario del producto " ++ producto idx ++ " en la moneda de la factura." |}.
Definition price_invalido (idx : Z) (price : value) : error :=
  {| campo := "Precio Unitario (Producto " ++ producto idx ++ ")";
     motivo := "El precio unitario '" ++ str price ++ "' del producto " ++ producto idx
               ++ " no es un número válido.";
     sugerencia := "Verifique el formato; el precio unitario debe ser un valor numérico (ej: 123.45)." |}.
Definition falta_subtotal (idx : Z) : error :=
  {| campo := "Valor Total Ítem (Producto " ++ producto idx ++ ")";
     motivo := "No se proporcionó el valor total (subtotal) para el ítem.";
     sugerencia := "Incluya el valor total (cantidad × precio) para el producto " ++ producto idx ++ "." |}.
Definition subtotal_invalido (idx : Z) (subtotal : value) : error :=
  {| campo := "Valor Total Ítem (Producto " ++ producto idx ++ ")";
     motivo := "El valor total '" ++ str subtotal ++ "' del producto " ++ producto idx
               ++ " no es un número válido.";
     sugerencia := "Verifique el formato; el subtotal del producto debe ser numérico." |}.
Definition falta_hs (idx : Z) : error :=
  {| campo := "Código HS (Producto " ++ producto idx ++ ")";
     motivo := "No se proporcionó el código arancelario (HS) del producto.";
     sugerencia := "Incluya el código HS (6 dígitos o más) correspondiente al producto " ++ producto idx ++ "." |}.
Definition hs_invalido (idx : Z) (hs : value) : error :=
  {| campo := "Código HS (Producto " ++ producto idx ++ ")";
     motivo := "El código HS '" ++ str hs ++ "' del producto " ++ producto idx
               ++ " tiene un formato inválido.";
     sugerencia := "Verifique el código; debe consistir solo de números (puede separarlo en grupos con puntos)." |}.
Definition falta_weight (idx : Z) : error :=
  {| campo := "Peso (Producto " ++ producto idx ++ ")";
     motivo := "No se proporcionó el peso del producto.";
     sugerencia := "Incluya el peso (neto o bruto, según corresponda) del producto " ++ producto idx ++ "." |}.
Definition weight_invalido (idx : Z) (weight : value) : error :=
  {| campo := "Peso (Producto " ++ producto idx ++ ")";
     motivo := "El peso '" ++ str weight ++ "' del producto " ++ producto idx
               ++ " no es un valor numérico válido.";
     sugerencia := "Verifique el valor; el peso debe ser numérico (puede incluir decimales)." |}.
Definition falta_packages (idx : Z) : error :=
  {| campo := "Número de Paquetes (Producto " ++ producto idx ++ ")";
     motivo := "No se indicó el número de paquetes o cajas del producto.";
     sugerencia := "Incluya la cantidad de paquetes, cajas u otras unidades de empaque para el producto "
                   ++ producto idx ++ "." |}.
Definition packages_invalido (idx : Z) (packages : value) : error :=
  {| campo := "Número de Paquetes (Producto " ++ producto idx ++ ")";
     motivo := "El valor '" ++ str packages ++ "' para los paquetes del producto " ++ producto idx
               ++ " no es un número entero válido.";
     sugerencia := "Verifique el número de paquetes; debe ser un número entero (ej: 1, 5, 10)." |}.
Definition moneda_distinta (idx : Z) (item_currency moneda_factura : value) : error :=
  {| campo := "Moneda (Producto " ++ producto idx ++ ")";
     motivo := "La moneda del producto " ++ producto idx ++ " (" ++ str item_currency
               ++ ") difiere de la moneda de la factura (" ++ str moneda_factura ++ ").";
     sugerencia := "Asegúrese de que todos los ítems estén expresados en la misma moneda que la factura." |}.
Definition subtotal_incoherente (idx : Z) (qty price subtotal : value) (expected_subtotal : float)
  : error :=
  {| campo := "Valor Total Ítem (Producto " ++ producto idx ++ ")";
     motivo := "El valor total del producto " ++ producto idx ++ " (" ++ str subtotal
               ++ ") no coincide con cantidad × precio unitario.";
     sugerencia := "Corrija el subtotal del producto " ++ producto idx ++ ": " ++ str qty ++ " × "
                   ++ str price ++ " debería ser aproximadamente " ++ fmt_2f expected_subtotal ++ "." |}.
Definition suma_distinta (suma_redondeada total_factura : float) : error :=
  {| campo := "Valor Total vs Suma Ítems";
     motivo := "La suma de los valores de los ítems (" ++ PyFloat.repr suma_redondeada
               ++ ") no coincide con el valor total de la factura (" ++ PyFloat.repr total_factura ++ ").";
     sugerencia := "Verifique que la suma de todos los subtotales de productos coincida exactamente con el valor total de la factura." |}.

(** A numeric field: the presence error, or the format error, and the
    variable assigned in the [else] branch only. *)
Definition regla_numerica (valor : value) (falta invalido : error) : list error :=
  if esta_vacio valor then [falta]
  else match parse_numeric valor with
       | None => [invalido]
       | Some _ => []
       end.

Definition asignar (valor : value) (anterior : local) : local :=
  if esta_vacio valor then anterior else Bound (parse_numeric valor).

Definition regla_hs (idx : Z) (hs : value) : list error :=
  if esta_vacio hs then [falta_hs idx]
  else
    let hs_code := strip (str hs) in
    if negb (Re.fullmatch re_hs_grupos hs_code)
       || negb (Re.fullmatch re_digitos (replace "." "" hs_code))
    then [hs_invalido idx hs] else [].

(** [packages_val is None or packages_val != int(packages_val)]: [int]
    raises on an infinity and on NaN. *)
Definition regla_packages (idx : Z) (packages : value) : result (list error) :=
  if esta_vacio packages then Ok [falta_packages idx]
  else
    match parse_numeric packages with
    | None => Ok [packages_invalido idx packages]
    | Some packages_val =>
        n <- int_of_float packages_val ;;
        Ok (if negb (eq_int packages_val n) then [packages_invalido idx packages] else [])
    end.

Definition regla_moneda_item (idx : Z) (item_currency moneda_factura : value) : list error :=
  if truthy item_currency && truthy moneda_factura then
    if negb (String.eqb (upper (strip (str item_currency)))
                        (upper (strip (str moneda_factura))))
    then [moneda_distinta idx item_currency moneda_factura] else []
  else [].

(** The body of [try:] in the accumulation step. *)
Definition acumular (suma : float) (qty_v price_v subtotal_v : local) : result float :=
  c1 <- and_then (in_locals subtotal_v) (v <- read subtotal_v ;; Ok (is_not_none v)) ;;
  if (c1 : bool) then
    s <- read_float subtotal_v ;; Ok (add suma s)
  else
    c2 <- and_then (in_locals qty_v) (and_then (in_locals price_v)
            (s <- read subtotal_v ;;
             and_then (negb (is_not_none s))
               (q <- read qty_v ;;
                and_then (is_not_none q) (p <- read price_v ;; Ok (is_not_none p))))) ;;
    if (c2 : bool) then
      q <- read_float qty_v ;; p <- read_float price_v ;; Ok (add suma (mul q p))
    else Ok suma.

(** The coherence check: all three variables are in [locals()] and none is [None]. *)
Definition regla_coherencia (idx : Z) (qty price subtotal : value)
  (qty_v price_v subtotal_v : local) : list error :=
  match qty_v, price_v, subtotal_v with
  | Bound (Some q), Bound (Some p), Bound (Some s) =>
      let expected_subtotal := round2 (mul q p) in
      if gt (abs (sub s expected_subtotal)) f_0_01
      then [subtotal_incoherente idx qty price subtotal expected_subtotal] else []
  | _, _, _ => []
  end.

(** One iteration of [for idx, item in enumerate(items, start=1)]. *)
Definition validar_item (moneda_factura : value) (idx : Z) (item : value) (st : estado)
  : result estado :=
  desc <- get item "Description" ;;
  qty <- get item "Quantity" ;;
  unit <- get item "UnitOfMeasurement" ;;
  price <- get item "UnitPrice" ;;
  subtotal <- get item "NetValuePerItem" ;;
  hs <- get item "HSCode" ;;
  weight <- get item "Weight" ;;
  packages <- get item "NumberOfPackagesBoxes" ;;
  let qty_v := asignar qty (qty_val st) in
  let price_v := asignar price (price_val st) in
  let subtotal_v := asignar subtotal (subtotal_val st) in
  e_packages <- regla_packages idx packages ;;
  item_currency <- get item "Currency" ;;
  let suma := try_except (acumular (suma_items st) qty_v price_v subtotal_v) (suma_items st) in
  Ok {| errores :=
          (errores st
           ++ si_vacio desc (falta_desc idx)
           ++ regla_numerica qty (falta_qty idx) (qty_invalida idx qty)
           ++ si_vacio unit (falta_unit idx)
           ++ regla_numerica price (falta_price idx) (price_invalido idx price)
           ++ regla_numerica subtotal (falta_subtotal idx) (subtotal_invalido idx subtotal)
           ++ regla_hs idx hs
           ++ regla_numerica weight (falta_weight idx) (weight_invalido idx weight)
           ++ e_packages
           ++ regla_moneda_item idx item_currency moneda_factura
           ++ regla_coherencia idx qty price subtotal qty_v price_v subtotal_v)%list;
        suma_items := suma;
        qty_val := qty_v;
        price_val := price_v;
        subtotal_val := subtotal_v |}.

Fixpoint bucle (moneda_factura : value) (idx : Z) (items : list value) (st : estado)
  : result estado :=
  match items with
  | [] => Ok st
  | item :: resto =>
      st' <- validar_item moneda_factura idx item st ;;
      bucle moneda_factura (idx + 1) resto st'
  end.

(** The check after the loop. *)
Definition reconciliacion (suma : float) (total_factura : option float) : list error :=
  match total_factura with
  | None => []
  | Some total =>
      let suma_redondeada := round2 suma in
      if gt (abs (sub suma_redondeada total)) f_0_01
      then [suma_distinta suma_redondeada total] else []
  end.

Definition validar_items (items moneda_factura : value) (total_factura : option float)
  : result (list error) :=
  elementos <- iterate items ;;
  st <- bucle moneda_factura 1 elementos estado_inicial ;;
  Ok (errores st ++ reconciliacion (suma_items st) total_factura)%list.

(** *** validar_factura *)

(** [campos[key] = value] for a truthy [key].  A list or a dict is not
    hashable.  A number or [True] is stored under a key that no
    [campos.get("...")] of the engine can read, all of them asking for a
    string, so the mapping read by the rules is unchanged. *)
Definition set_item (campos : dict) (key v : value) : result dict :=
  match key with
  | VStr k => Ok (dict_set campos k v)
  | VList _ | VDict _ => Raise TypeError
  | _ => Ok campos
  end.

Fixpoint cargar_campos (fields : list value) (campos : dict) : result dict :=
  match fields with
  | [] => Ok campos
  | item :: resto =>
      k1 <- get item "Fields" ;;
      k2 <- get item "Field" ;;
      k3 <- get item "Nombre" ;;
      k4 <- get item "name" ;;
      let key := or_ (or_ (or_ k1 k2) k3) k4 in
      v1 <- get item "Value" ;;
      v2 <- get item "Valor" ;;
      v3 <- get item "value" ;;
      let v := or_ (or_ v1 v2) v3 in
      campos' <- (if truthy key then set_item campos key v else Ok campos) ;;
      cargar_campos resto campos'
  end.

Definition normalizar (data : dict) : result value :=
  match dict_find data "Fields" with
  | Some (VList fields) =>
      campos <- cargar_campos fields [] ;; Ok (VDict campos)
  | _ => Ok (dict_get_or data "Fields" (VDict data))
  end.

Definition seleccionar_items (data : dict) : value :=
  if dict_has data "Table" then dict_item data "Table"
  else if dict_has data "Items" then dict_item data "Items"
  else if dict_has data "Productos" then dict_item data "Productos"
  else VList [].

(** [{"resultado": ..., "errores": ...}] *)
Record informe : Type := { resultado : string; errores_totales : list error }.

Definition validar_factura (data : dict) : result informe :=
  campos <- normalizar data ;;
  let items := seleccionar_items data in
  e_campos <- validar_campos_principales campos ;;
  total <- get campos "TotalInvoiceValue" ;;
  let total_factura_val := if negb (is_none total) then parse_numeric total else None in
  moneda <- get campos "Currency" ;;
  e_items <- validar_items items moneda total_factura_val ;;
  let errores_totales := (e_campos ++ e_items)%list in
  let cumple := (Z.of_nat (List.length errores_totales) =? 0)%Z in
  Ok {| resultado := if cumple then "Cumple" else "No cumple";
        errores_totales := errores_totales |}.

End Engine.

(** * Vocabulary of the statements, and the records they are tried on *)

Import PyStr PyFloat Py Engine.
Local Open Scope bool_scope.
Local Open Scope py_scope.


(** Every error of [l] carries the label [c]. *)
Definition todos_de (c : string) (l : list error) : Prop :=
  Forall (fun e => campo e = c) l.

(** A header with a date and a lowercase Incoterm. *)
Definition cabecera_fob : value :=
  VDict [("InvoiceDate", VStr "31/12/2024"); ("Incoterm", VStr "fob")].

(** Its header report. *)
Definition errores_cabecera_fob : list error :=
  Eval vm_compute in
    match validar_campos_principales cabecera_fob with
    | Ok l => l
    | Raise _ => []
    end.

(** The fifteen required header fields, in the order the rule set checks them. *)
Inductive requerido : Type :=
| Supplier | SupplierAddress | SupplierTaxID
| Customer | CustomerAddress | CustomerTaxID
| InvoiceNumber | InvoiceDate | Incoterm
| PortOfLoading | PortOfDischarge | CountryOfOrigin
| PaymentTerms | Currency | TotalInvoiceValue.

(** The key the rule set reads for a field. *)
Definition clave (f : requerido) : string :=
  match f with
  | Supplier => "Supplier" | SupplierAddress => "SupplierAddress"
  | SupplierTaxID => "SupplierTaxID" | Customer => "Customer"
  | CustomerAddress => "CustomerAddress" | CustomerTaxID => "CustomerTaxID"
  | InvoiceNumber => "InvoiceNumber" | InvoiceDate => "InvoiceDate"
  | Incoterm => "Incoterm" | PortOfLoading => "PortOfLoading"
  | PortOfDischarge => "PortOfDischarge" | CountryOfOrigin => "CountryOfOrigin"
  | PaymentTerms => "PaymentTerms" | Currency => "Currency"
  | TotalInvoiceValue => "TotalInvoiceValue"
  end.

(** The presence error of a field. *)
Definition falta (f : requerido) : error :=
  match f with
  | Supplier => falta_exp_nombre | SupplierAddress => falta_exp_dir
  | SupplierTaxID => falta_exp_id | Customer => falta_imp_nombre
  | CustomerAddress => falta_imp_dir | CustomerTaxID => falta_imp_id
  | InvoiceNumber => falta_num_fact | InvoiceDate => falta_fecha_fact
  | Incoterm => falta_incoterm | PortOfLoading => falta_puerto_carga
  | PortOfDischarge => falta_puerto_desc | CountryOfOrigin => falta_origen
  | PaymentTerms => falta_pago | Currency => falta_moneda
  | TotalInvoiceValue => falta_valor_total
  end.

(** The label under which a field's errors are reported. *)
Definition etiqueta (f : requerido) : string := campo (falta f).





(** Two items of 100.00 and 200.00 against a declared total of 300.00. *)
Definition factura_minima : dict :=
  [("Fields", VDict [("InvoiceDate", VStr "2024-12-31"); ("TotalInvoiceValue", VStr "300.00")]);
   ("Table", VList [VDict [("NetValuePerItem", VStr "100.00")];
                    VDict [("NetValuePerItem", VStr "200.00")]])].

(** Its report. *)
Definition informe_factura_minima : informe :=
  Eval vm_compute in
    match validar_factura factura_minima with
    | Ok r => r
    | Raise _ => {| resultado := ""; errores_totales := [] |}
    end.




(** A record whose InvoiceDate is a JSON number. *)
Definition factura_fecha_numerica : dict :=
  [("Fields", VDict [("InvoiceDate", VInt 20240101)])].

(** A package count that [float] reads as an infinity. *)
Definition factura_paquetes_infinitos : dict :=
  [("Fields", VDict [("InvoiceDate", VStr "2024-01-01")]);
   ("Table", VList [VDict [("NumberOfPackagesBoxes", VStr "1.0e999")]])].

(** An item with coherent quantity, price and subtotal, and one with a subtotal only. *)
Definition item_completo : value :=
  VDict [("Quantity", VStr "10"); ("UnitPrice", VStr "5.00"); ("NetValuePerItem", VStr "50.00")].

Definition item_solo_subtotal : value :=
  VDict [("NetValuePerItem", VStr "60.00")].

(** 50.0 *)
Definition f_50 : float := S754_finite false 7036874417766400 (-47).

(** Quantity 10 at 5.00 with a given subtotal. *)
Definition item_10_por_5 (subtotal : string) : value :=
  VDict [("Quantity", VStr "10"); ("UnitPrice", VStr "5.00"); ("NetValuePerItem", VStr subtotal)].

(** Quantity 1 at 1.00 with a given subtotal. *)
Definition item_1_por_1 (subtotal : string) : value :=
  VDict [("Quantity", VStr "1"); ("UnitPrice", VStr "1.00"); ("NetValuePerItem", VStr subtotal)].

(** The coherence errors of a report, recognised by their suggestion. *)
Definition incoherencias (l : list error) : list error :=
  filter (fun e => prefix "Corrija el subtotal del producto" (sugerencia e)) l.

(** The number of coherence errors in the report of [items]. *)
Definition incoherencias_de (items : list value) : result nat :=
  errs <- validar_items (VList items) VNone None ;;
  Ok (List.length (incoherencias errs)).

(** What an item's own field yields: no value when it is empty or does not parse. *)
Definition leido (v : value) : option float :=
  if esta_vacio v then None else parse_numeric v.

(** 100.0 and 200.0 *)
Definition f_100 : float := S754_finite false 7036874417766400 (-46).
Definition f_200 : float := S754_finite false 7036874417766400 (-45).

(** A complete, valid header with a given total. *)
Definition cabecera_completa (total : value) : dict :=
  [("Supplier", VStr "ACME Ltd"); ("SupplierAddress", VStr "1 Main St, Austin, US");
   ("SupplierTaxID", VStr "US-123"); ("Customer", VStr "Importadora SAS");
   ("CustomerAddress", VStr "Calle 1, Bogota, CO"); ("CustomerTaxID", VStr "900123456");
   ("InvoiceNumber", VStr "58846"); ("InvoiceDate", VStr "31/12/2024");
   ("Incoterm", VStr "FOB"); ("PortOfLoading", VStr "Houston");
   ("PortOfDischarge", VStr "Cartagena"); ("CountryOfOrigin", VStr "US");
   ("PaymentTerms", VStr "30 dias"); ("Currency", VStr "USD");
   ("TotalInvoiceValue", total)].

(** The same header as a list of [{"Field": k, "Value": v}] objects. *)
Definition como_pares (d : dict) : value :=
  VList (map (fun '(k, v) => VDict [("Field", VStr k); ("Value", v)]) d).

(** One object of a field list, with the key under [kn] and the value under [vn]. *)
Definition par (kn vn : string) (kv : string * value) : value :=
  VDict [(kn, VStr (fst kv)); (vn, snd kv)].

(** The direct mapping that holds the same fields. *)
Definition mapa_de (l : list (string * value)) : dict :=
  fold_left (fun campos kv => dict_set campos (fst kv) (snd kv)) l [].

Module Especificacion.

(** [c] occurs in [s] *)
Definition ocurre (c : ascii) (s : string) : bool := existsb (Ascii.eqb c) (chars s).

(** The separator, point or comma, that occurs last. *)
Fixpoint separador_final (l : list ascii) : option ascii :=
  match l with
  | [] => None
  | c :: r =>
      match separador_final r with
      | Some d => Some d
      | None => if Ascii.eqb c "." || Ascii.eqb c "," then Some c else None
      end
  end.

(** The later separator is the comma. *)
Definition decimal_es_coma (s : string) : bool :=
  match separador_final (chars s) with
  | Some c => Ascii.eqb c ","
  | None => false
  end.





End Especificacion.

Import Especificacion.


(** ** Further vocabulary: the header rule set *)

(** The required fields, in the order the rule set checks them. *)
Definition requeridos : list requerido :=
  [Supplier; SupplierAddress; SupplierTaxID; Customer; CustomerAddress; CustomerTaxID;
   InvoiceNumber; InvoiceDate; Incoterm; PortOfLoading; PortOfDischarge; CountryOfOrigin;
   PaymentTerms; Currency; TotalInvoiceValue].

(** [l] is [m] with some elements left out, the others in their order. *)
Inductive subsecuencia {A : Type} : list A -> list A -> Prop :=
| sub_nil : subsecuencia [] []
| sub_skip : forall x l m, subsecuencia l m -> subsecuencia l (x :: m)
| sub_take : forall x l m, subsecuencia l m -> subsecuencia (x :: l) (x :: m).

(** The header is a mapping whose date is absent or a text: what the rule
    set can read without calling [strip] on something that has none. *)
Definition cabecera_legible (campos : value) : bool :=
  match campos with
  | VDict d =>
      match dict_get d "InvoiceDate" with
      | VNone | VStr _ => true
      | _ => false
      end
  | _ => false
  end.

(** ** Further vocabulary: the item rule set *)








(** The label of [e] names item [k]. *)
Definition es_de_producto (k : Z) (e : error) : Prop :=
  exists a, campo e = a ++ "(Producto " ++ producto k ++ ")".

(** Two complete items, the second with a subtotal that does not parse. *)
Definition items_completos : list value :=
  [item_10_por_5 "50.00"; item_10_por_5 "abc"].

(** 100.0: 50.0 plus 10 times 5 *)
Definition estado_items_completos : estado :=
  Eval vm_compute in
    match bucle VNone 1 items_completos estado_inicial with
    | Ok st => st
    | Raise _ => estado_inicial
    end.

(** One statement of the loop body adds at most one error, labelled for
    the item at hand. *)
Definition de_un_item (k : Z) (l : list error) : Prop :=
  Forall (es_de_producto k) l /\ (List.length l <= 1)%nat.

(** ** Further vocabulary: texts *)

(** [s] with points and commas exchanged: the other locale's spelling. *)
Definition intercambiar_char (c : ascii) : ascii :=
  if Ascii.eqb c "." then ","%char else if Ascii.eqb c "," then "."%char else c.

Definition intercambiar (s : string) : string :=
  text (map intercambiar_char (chars s)).

(** ** Further vocabulary: the shapes the patterns accept *)




(** A numeral without separators: an optional minus sign and digits. *)
Definition signo (neg : bool) : list ascii := if neg then ["-"%char] else [].

(** ** Further vocabulary: dates written out *)

(** The digit [k], for [0 <= k <= 9]. *)
Definition digito (k : Z) : ascii := ascii_of_N (Z.to_N (48 + k)).

(** A number written with two and with four digits, zeros in front. *)
Definition dos (n : Z) : list ascii := [digito (n / 10); digito (n mod 10)].
Definition cuatro (n : Z) : list ascii :=
  [digito (n / 1000); digito (n / 100 mod 10); digito (n / 10 mod 10); digito (n mod 10)].

(** The five layouts the recogniser tries, in its order. *)
Inductive disposicion : Type :=
| DiaMesAnio_barra
| MesDiaAnio_barra
| AnioMesDia_guion
| DiaMesAnio_guion
| MesDiaAnio_guion.

Definition formato_de (disp : disposicion) : string :=
  match disp with
  | DiaMesAnio_barra => "%d/%m/%Y"
  | MesDiaAnio_barra => "%m/%d/%Y"
  | AnioMesDia_guion => "%Y-%m-%d"
  | DiaMesAnio_guion => "%d-%m-%Y"
  | MesDiaAnio_guion => "%m-%d-%Y"
  end.

(** The date [y]-[m]-[d] written in a layout. *)
Definition escribir (disp : disposicion) (y m d : Z) : list ascii :=
  match disp with
  | DiaMesAnio_barra => dos d ++ "/"%char :: dos m ++ "/"%char :: cuatro y
  | MesDiaAnio_barra => dos m ++ "/"%char :: dos d ++ "/"%char :: cuatro y
  | AnioMesDia_guion => cuatro y ++ "-"%char :: dos m ++ "-"%char :: dos d
  | DiaMesAnio_guion => dos d ++ "-"%char :: dos m ++ "-"%char :: cuatro y
  | MesDiaAnio_guion => dos m ++ "-"%char :: dos d ++ "-"%char :: cuatro y
  end%list.

(** The first match of the expression reaches the end of the text with
    the fields [f]. *)
Definition primera (res : list (PyDate.fields * list ascii)) (f : PyDate.fields) : Prop :=
  exists o, res = (f, []) :: o.

(** ** Further vocabulary: field lists *)

(** The value of the last pair of [l] whose key is [k], [None] without one. *)
Definition ultimo_valor (k : string) (l : list (string * value)) : value :=
  match find (fun kv => String.eqb k (fst kv)) (rev l) with
  | Some kv => snd kv
  | None => VNone
  end.

(** The key a field-list object is stored under: the first truthy one of
    its four synonyms. *)
Definition clave_elegida (d : dict) : value :=
  or_ (or_ (or_ (dict_get d "Fields") (dict_get d "Field")) (dict_get d "Nombre"))
      (dict_get d "name").

(** An element of a field list that can be loaded: a mapping whose chosen
    key is hashable or falsy. *)
Definition cargable (item : value) : bool :=
  match item with
  | VDict d =>
      match clave_elegida d with
      | VList (_ :: _) | VDict (_ :: _) => false
      | _ => true
      end
  | _ => false
  end.

(** ** The command-line entry point and the web service *)

Fixpoint startswith_chars (l p : list ascii) {struct p} : bool :=
  match p, l with
  | [], _ => true
  | _ :: _, [] => false
  | c :: p', d :: l' => Ascii.eqb c d && startswith_chars l' p'
  end.

(** [s.endswith(suf)] *)
Definition endswith (s suf : string) : bool :=
  startswith_chars (rev (chars s)) (rev (chars suf)).

(** [s[:-n]] for a positive [n] *)
Definition slice_until_last (n : nat) (s : string) : string :=
  text (firstn (List.length (chars s) - n) (chars s)).

(** The name of the report file that [__main__] writes for the invoice
    file [archivo]. *)
Definition nombre_salida (archivo : string) : string :=
  let nombre_salida := archivo in
  let nombre_salida :=
    if endswith (lower nombre_salida) ".json" then slice_until_last 5 nombre_salida
    else nombre_salida in
  nombre_salida ++ "_resultado.json".

(** The report as the dictionary [validar_factura] returns. *)
Definition error_valor (e : error) : value :=
  VDict [("campo", VStr (campo e)); ("motivo", VStr (motivo e));
         ("sugerencia", VStr (sugerencia e))].
Definition informe_valor (r : informe) : dict :=
  [("resultado", VStr (resultado r)); ("errores", VList (map error_valor (errores_totales r)))].

(** The state the web service shows for a validated file:
    [resultado.get("resultado") or resultado.get("status") or "Sin estado"]. *)
Definition estado_mostrado (resultado : dict) : value :=
  or_ (or_ (dict_get resultado "resultado") (dict_get resultado "status")) (VStr "Sin estado").

(** * Properties *)

(** ** Errors by field label *)





(** ** The header rules, one by one *)

Lemma si_vacio_de v e : todos_de (campo e) (si_vacio v e).
Proof. unfold si_vacio. destruct (esta_vacio v); repeat constructor. Qed.

Lemma si_vacio_length v e : (List.length (si_vacio v e) <= 1)%nat.
Proof. unfold si_vacio. destruct (esta_vacio v); simpl; lia. Qed.

Lemma regla_fecha_de v l : regla_fecha v = Ok l -> todos_de "Fecha de Factura" l.
Proof.
  unfold regla_fecha. destruct (esta_vacio v).
  - intros [= <-]. repeat constructor.
  - destruct (es_fecha_valida v) as [[|]|]; simpl; intros [= <-]; repeat constructor.
Qed.

Lemma regla_fecha_length v l : regla_fecha v = Ok l -> (List.length l <= 1)%nat.
Proof.
  unfold regla_fecha. destruct (esta_vacio v).
  - intros [= <-]. simpl. lia.
  - destruct (es_fecha_valida v) as [[|]|]; simpl; intros [= <-]; simpl; lia.
Qed.

Lemma regla_incoterm_de v : todos_de "Incoterm" (regla_incoterm v).
Proof.
  unfold regla_incoterm. destruct (esta_vacio v); [repeat constructor|].
  destruct (mem _ _); repeat constructor.
Qed.

Lemma regla_incoterm_length v : (List.length (regla_incoterm v) <= 1)%nat.
Proof.
  unfold regla_incoterm. destruct (esta_vacio v); [simpl; lia|].
  destruct (mem _ _); simpl; lia.
Qed.

Lemma regla_moneda_de v : todos_de "Moneda" (regla_moneda v).
Proof.
  unfold regla_moneda. destruct (esta_vacio v); [repeat constructor|].
  destruct (Re.fullmatch _ _); repeat constructor.
Qed.

Lemma regla_moneda_length v : (List.length (regla_moneda v) <= 1)%nat.
Proof.
  unfold regla_moneda. destruct (esta_vacio v); [simpl; lia|].
  destruct (Re.fullmatch _ _); simpl; lia.
Qed.

Lemma regla_valor_total_de v : todos_de "Valor Total" (regla_valor_total v).
Proof.
  unfold regla_valor_total. destruct (esta_vacio v); [repeat constructor|].
  destruct (parse_numeric v); repeat constructor.
Qed.

Lemma regla_valor_total_length v : (List.length (regla_valor_total v) <= 1)%nat.
Proof.
  unfold regla_valor_total. destruct (esta_vacio v); [simpl; lia|].
  destruct (parse_numeric v); simpl; lia.
Qed.

(** What a returning call of the header rule set has computed. *)
Lemma validar_campos_principales_inv campos errs :
  validar_campos_principales campos = Ok errs ->
  exists d e_fecha,
    campos = VDict d /\
    regla_fecha (dict_get d "InvoiceDate") = Ok e_fecha /\
    errs =
      (si_vacio (dict_get d "Supplier") falta_exp_nombre
       ++ si_vacio (dict_get d "SupplierAddress") falta_exp_dir
       ++ si_vacio (dict_get d "SupplierTaxID") falta_exp_id
       ++ si_vacio (dict_get d "Customer") falta_imp_nombre
       ++ si_vacio (dict_get d "CustomerAddress") falta_imp_dir
       ++ si_vacio (dict_get d "CustomerTaxID") falta_imp_id
       ++ si_vacio (dict_get d "InvoiceNumber") falta_num_fact
       ++ e_fecha
       ++ regla_incoterm (dict_get d "Incoterm")
       ++ si_vacio (dict_get d "PortOfLoading") falta_puerto_carga
       ++ si_vacio (dict_get d "PortOfDischarge") falta_puerto_desc
       ++ si_vacio (dict_get d "CountryOfOrigin") falta_origen
       ++ si_vacio (dict_get d "PaymentTerms") falta_pago
       ++ regla_moneda (dict_get d "Currency")
       ++ regla_valor_total (dict_get d "TotalInvoiceValue"))%list.
Proof.
  destruct campos as [| | | | |l|d]; try discriminate.
  unfold validar_campos_principales; simpl.
  destruct (regla_fecha (dict_get d "InvoiceDate")) as [e_fecha|] eqn:Hf;
    simpl; [|discriminate].
  intros [= <-]. exists d, e_fecha. auto.
Qed.


(** ** Incoterm *)



(** ** The fifteen required header fields *)





(** ** Labels of the item rules *)










(** What one returning iteration has computed. *)
Lemma validar_item_inv moneda idx item st st' :
  validar_item moneda idx item st = Ok st' ->
  exists d e_packages,
    item = VDict d /\
    regla_packages idx (dict_get d "NumberOfPackagesBoxes") = Ok e_packages /\
    qty_val st' = asignar (dict_get d "Quantity") (qty_val st) /\
    price_val st' = asignar (dict_get d "UnitPrice") (price_val st) /\
    subtotal_val st' = asignar (dict_get d "NetValuePerItem") (subtotal_val st) /\
    suma_items st' =
      try_except (acumular (suma_items st) (qty_val st') (price_val st') (subtotal_val st'))
                 (suma_items st) /\
    errores st' =
      (errores st
       ++ si_vacio (dict_get d "Description") (falta_desc idx)
       ++ regla_numerica (dict_get d "Quantity") (falta_qty idx)
            (qty_invalida idx (dict_get d "Quantity"))
       ++ si_vacio (dict_get d "UnitOfMeasurement") (falta_unit idx)
       ++ regla_numerica (dict_get d "UnitPrice") (falta_price idx)
            (price_invalido idx (dict_get d "UnitPrice"))
       ++ regla_numerica (dict_get d "NetValuePerItem") (falta_subtotal idx)
            (subtotal_invalido idx (dict_get d "NetValuePerItem"))
       ++ regla_hs idx (dict_get d "HSCode")
       ++ regla_numerica (dict_get d "Weight") (falta_weight idx)
            (weight_invalido idx (dict_get d "Weight"))
       ++ e_packages
       ++ regla_moneda_item idx (dict_get d "Currency") moneda
       ++ regla_coherencia idx (dict_get d "Quantity") (dict_get d "UnitPrice")
            (dict_get d "NetValuePerItem") (qty_val st') (price_val st') (subtotal_val st'))%list.
Proof.
  destruct item as [| | | | |l|d]; try discriminate.
  unfold validar_item, get; cbn [bind].
  destruct (regla_packages idx (dict_get d "NumberOfPackagesBoxes")) as [e_packages|] eqn:Hp;
    cbn [bind]; [|discriminate].
  intros [= <-]. exists d, e_packages. cbn. auto 10.
Qed.



(** ** The engine as a whole *)

Lemma parse_numeric_none_guard v :
  (if negb (is_none v) then parse_numeric v else None) = parse_numeric v.
Proof. destruct v; reflexivity. Qed.

(** What a returning call of [validar_factura] has computed. *)
Lemma validar_factura_inv data r :
  validar_factura data = Ok r ->
  exists campos e_campos elementos st,
    normalizar data = Ok (VDict campos) /\
    validar_campos_principales (VDict campos) = Ok e_campos /\
    iterate (seleccionar_items data) = Ok elementos /\
    bucle (dict_get campos "Currency") 1 elementos estado_inicial = Ok st /\
    errores_totales r =
      (e_campos ++ errores st
       ++ reconciliacion (suma_items st) (parse_numeric (dict_get campos "TotalInvoiceValue")))%list /\
    resultado r =
      if (Z.of_nat (List.length (errores_totales r)) =? 0)%Z then "Cumple" else "No cumple".
Proof.
  unfold validar_factura.
  destruct (normalizar data) as [campos|] eqn:Hn; cbn [bind]; [|discriminate].
  destruct (validar_campos_principales campos) as [e_campos|] eqn:Hc; cbn [bind]; [|discriminate].
  destruct (validar_campos_principales_inv _ _ Hc) as (d & _ & -> & _ & _).
  unfold get; cbn [bind]. rewrite parse_numeric_none_guard.
  unfold validar_items.
  destruct (iterate (seleccionar_items data)) as [elementos|] eqn:Hi; cbn [bind]; [|discriminate].
  destruct (bucle (dict_get d "Currency") 1 elementos estado_inicial) as [st|] eqn:Hb;
    cbn [bind]; [|discriminate].
  intros [= <-]. exists d, e_campos, elementos, st. cbn. auto 10.
Qed.

(** C7.  The report a call returns says "Cumple" exactly when its error
    list is empty, and that list is the header errors, then the errors of
    the items in order, then the reconciliation error. *)
Theorem informe_cumple_sii_sin_errores :
  forall (data : dict) (r : informe),
    validar_factura data = Ok r ->
    (resultado r = "Cumple" <-> errores_totales r = [])
    /\ (resultado r = "Cumple" \/ resultado r = "No cumple")
    /\ exists campos e_campos elementos st,
         normalizar data = Ok (VDict campos) /\
         validar_campos_principales (VDict campos) = Ok e_campos /\
         iterate (seleccionar_items data) = Ok elementos /\
         bucle (dict_get campos "Currency") 1 elementos estado_inicial = Ok st /\
         errores_totales r =
           (e_campos ++ errores st
            ++ reconciliacion (suma_items st)
                 (parse_numeric (dict_get campos "TotalInvoiceValue")))%list.
Proof.
  intros data r H.
  destruct (validar_factura_inv _ _ H)
    as (campos & e_campos & elementos & st & Hn & Hc & Hi & Hb & He & Hr).
  split; [|split].
  - rewrite Hr. destruct (errores_totales r); simpl; split; intros E;
      (reflexivity || discriminate E).
  - rewrite Hr. destruct (_ =? _)%Z; auto.
  - exists campos, e_campos, elementos, st. auto.
Qed.

Lemma informe_cumple_sii_sin_errores_witness :
  (resultado informe_factura_minima = "Cumple" <-> errores_totales informe_factura_minima = [])
  /\ (resultado informe_factura_minima = "Cumple" \/ resultado informe_factura_minima = "No cumple")
  /\ exists campos e_campos elementos st,
       normalizar factura_minima = Ok (VDict campos) /\
       validar_campos_principales (VDict campos) = Ok e_campos /\
       iterate (seleccionar_items factura_minima) = Ok elementos /\
       bucle (dict_get campos "Currency") 1 elementos estado_inicial = Ok st /\
       errores_totales informe_factura_minima =
         (e_campos ++ errores st
          ++ reconciliacion (suma_items st)
               (parse_numeric (dict_get campos "TotalInvoiceValue")))%list.
Proof.
  apply (informe_cumple_sii_sin_errores factura_minima informe_factura_minima).
  vm_compute. reflexivity.
Defined.

(** ** Reconciliation *)





(** ** The header mapping of a record without a field list *)



(** ** Inputs on which the engine departs from its description *)

(** *** A header date that is a number *)

(** C3.  A record whose InvoiceDate is the number 20240101 makes
    [validar_factura] raise [AttributeError] instead of returning a report:
    [es_fecha_valida] calls [strip] on the value without converting it to
    text first, as the Incoterm, Currency and numeric rules do.  A package
    count that reads as an infinity raises [OverflowError] likewise. *)
Theorem fecha_numerica_lanza_excepcion :
  validar_factura factura_fecha_numerica = Raise AttributeError
  /\ validar_factura factura_paquetes_infinitos = Raise OverflowError.
Proof. split; vm_compute; reflexivity. Qed.

(** *** Values that survive from one item to the next *)

(** C1.  For the items [item_completo; item_solo_subtotal] the second item
    has no Quantity and no UnitPrice of its own, yet the loop reports its
    subtotal 60.00 as disagreeing with 50.00, the product of the first
    item's quantity and price, which [qty_val] and [price_val] still hold.
    On a single item the boundary is as described: 10 at 5.00 with 50.01
    gives no coherence error and with 50.02 gives one. *)
Theorem coherencia_usa_valores_del_item_anterior :
  parse_numeric (dict_get [("NetValuePerItem", VStr "60.00")] "Quantity") = None
  /\ parse_numeric (dict_get [("NetValuePerItem", VStr "60.00")] "UnitPrice") = None
  /\ (exists errs,
       validar_items (VList [item_completo; item_solo_subtotal]) VNone None = Ok errs
       /\ In (subtotal_incoherente 2 VNone VNone (VStr "60.00") f_50) errs
       /\ sugerencia (subtotal_incoherente 2 VNone VNone (VStr "60.00") f_50)
          = "Corrija el subtotal del producto 2: None × None debería ser aproximadamente 50.00.")
  /\ incoherencias_de [item_completo; item_solo_subtotal] = Ok 1%nat
  /\ incoherencias_de [item_solo_subtotal] = Ok 0%nat
  /\ incoherencias_de [item_10_por_5 "50.01"] = Ok 0%nat
  /\ incoherencias_de [item_10_por_5 "50.02"] = Ok 1%nat.
Proof.
  split; [reflexivity|split; [reflexivity|]].
  split; [|repeat split; vm_compute; reflexivity].
  eexists. split; [vm_compute; reflexivity|].
  split; [|vm_compute; reflexivity].
  vm_compute. do 12 right. left. reflexivity.
Qed.

(** The tolerance is compared in binary64: 1.01 - 1.0 is slightly more than
    the binary64 0.01, so a subtotal of 1.01 for 1 at 1.00 is reported,
    whereas 50.01 - 50.0 is slightly less and is not. *)
Lemma frontera_en_binario :
  incoherencias_de [item_1_por_1 "1.01"] = Ok 1%nat
  /\ gt (sub (of_decimal false 101 (-2)) (of_decimal false 1 0)) f_0_01 = true
  /\ gt (sub (of_decimal false 5001 (-2)) (of_decimal false 50 0)) f_0_01 = false.
Proof. repeat split; vm_compute; reflexivity. Qed.

(** An empty field has no numeric reading, so what an item's own field
    yields is what [parse_numeric] makes of it. *)
Lemma lower_char_inv c d :
  lower_char c = d -> c = d \/ (is_lower d = true /\ c = ascii_of_N (code d - 32)).
Proof.
  destruct c as [[] [] [] [] [] [] [] []]; intros <-; vm_compute;
    first [left; reflexivity | right; split; reflexivity].
Qed.

Ltac letras :=
  repeat match goal with
         | Hc : lower_char _ = _ |- _ =>
             apply lower_char_inv in Hc;
             destruct Hc as [Hc|[Hc ->]];
             [subst | vm_compute in Hc; first [discriminate Hc | clear Hc]]
         end.

Lemma esta_vacio_parse_numeric v : esta_vacio v = true -> parse_numeric v = None.
Proof.
  destruct v as [| | | |s| |]; try discriminate; [reflexivity|].
  unfold esta_vacio, parse_numeric, str. cbv zeta.
  generalize (strip s). clear s. intros t H.
  destruct (String.eqb t "") eqn:E; [reflexivity|].
  cbn [orb mem existsb] in H.
  rewrite !Bool.orb_true_iff in H.
  destruct H as [H|[H|[H|H]]]; [| | |discriminate H];
    apply String.eqb_eq in H; unfold lower, text, chars in H;
    destruct t as [|c1 [|c2 [|c3 [|c4 [|c5 t]]]]]; try discriminate H;
    cbn [list_ascii_of_string map string_of_list_ascii] in H;
    injection H; clear H; intros; letras; vm_compute; reflexivity.
Qed.

Lemma leido_parse_numeric v : leido v = parse_numeric v.
Proof.
  unfold leido. destruct (esta_vacio v) eqn:E; [|reflexivity].
  symmetry. apply esta_vacio_parse_numeric. exact E.
Qed.

(** On the first item of a list the coherence check and the running sum
    depend on that item's own fields: the check is as described, and the sum
    receives the subtotal, or the product when the subtotal is present but
    does not parse; an absent subtotal adds nothing, whatever the quantity
    and the price. *)
Lemma primer_item moneda idx d st' :
  validar_item moneda idx (VDict d) estado_inicial = Ok st' ->
  let qty := dict_get d "Quantity" in
  let price := dict_get d "UnitPrice" in
  let subtotal := dict_get d "NetValuePerItem" in
  regla_coherencia idx qty price subtotal (qty_val st') (price_val st') (subtotal_val st') =
    match leido qty, leido price, leido subtotal with
    | Some q, Some p, Some s =>
        if gt (abs (sub s (round2 (mul q p)))) f_0_01
        then [subtotal_incoherente idx qty price subtotal (round2 (mul q p))] else []
    | _, _, _ => []
    end
  /\ suma_items st' =
       match leido subtotal with
       | Some s => add zero s
       | None =>
           if esta_vacio subtotal then zero
           else match leido qty, leido price with
                | Some q, Some p => add zero (mul q p)
                | _, _ => zero
                end
       end.
Proof.
  intros H.
  destruct (validar_item_inv _ _ _ _ _ H)
    as (d' & e_packages & [= <-] & _ & Hq & Hp & Hs & Hsum & _).
  cbv zeta. rewrite Hsum, Hq, Hp, Hs. unfold asignar, leido. cbn [qty_val price_val subtotal_val suma_items estado_inicial].
  destruct (esta_vacio (dict_get d "Quantity")), (esta_vacio (dict_get d "UnitPrice")),
    (esta_vacio (dict_get d "NetValuePerItem"));
    destruct (parse_numeric (dict_get d "Quantity")),
      (parse_numeric (dict_get d "UnitPrice")),
      (parse_numeric (dict_get d "NetValuePerItem")); split; reflexivity.
Qed.

(** C2.  After the items [{"NetValuePerItem": "100.00"}; {}] the running sum
    is 200.0: the empty second item adds the first item's subtotal again,
    which [subtotal_val] still holds.  And a first item with Quantity 2 and
    UnitPrice 3 but no NetValuePerItem adds nothing, because reading the
    unbound [subtotal_val] raises inside [try] and the handler passes. *)
Theorem suma_acumula_valores_del_item_anterior :
  (exists st,
      bucle VNone 1 [VDict [("NetValuePerItem", VStr "100.00")]; VDict []] estado_inicial = Ok st
      /\ suma_items st = f_200)
  /\ (exists st,
        bucle VNone 1 [VDict [("NetValuePerItem", VStr "100.00")]] estado_inicial = Ok st
        /\ suma_items st = f_100)
  /\ (exists st,
        bucle VNone 1 [VDict [("Quantity", VStr "2"); ("UnitPrice", VStr "3")]] estado_inicial = Ok st
        /\ suma_items st = zero)
  /\ acumular zero (Bound (Some f_100)) (Bound (Some f_100)) Unbound = Raise UnboundLocalError.
Proof.
  repeat split; try (eexists; split; vm_compute; reflexivity).
Qed.

(** *** A field list whose value is zero *)

(** C8.  With a total of 0 (the number) and no items, the direct header
    mapping is compliant, whereas the same header given as a list of
    Field/Value objects is reported as lacking its total: [or] skips the
    falsy 0 and the value stored is [None]. *)
Theorem pares_con_valor_cero_difieren :
  validar_factura [("Fields", VDict (cabecera_completa (VInt 0))); ("Table", VList [])]
    = Ok {| resultado := "Cumple"; errores_totales := [] |}
  /\ validar_factura [("Fields", como_pares (cabecera_completa (VInt 0))); ("Table", VList [])]
    = Ok {| resultado := "No cumple"; errores_totales := [falta_valor_total] |}.
Proof. split; vm_compute; reflexivity. Qed.

Lemma or_none_l x : or_ VNone x = x.
Proof. reflexivity. Qed.

Lemma or_truthy x y : truthy x = true -> or_ x y = x.
Proof. intros H. unfold or_. rewrite H. reflexivity. Qed.

(** When every key is a non-empty text and every value is truthy, a field
    list is read as the direct mapping of the same fields. *)
Lemma cargar_campos_pares kn vn l : forall campos,
  In kn ["Fields"; "Field"; "Nombre"; "name"] ->
  In vn ["Value"; "Valor"; "value"] ->
  Forall (fun kv => fst kv <> "" /\ truthy (snd kv) = true) l ->
  cargar_campos (map (par kn vn) l) campos =
  Ok (fold_left (fun campos kv => dict_set campos (fst kv) (snd kv)) l campos).
Proof.
  intros campos Hk Hv H. revert campos.
  induction H as [|[k v] l [Hne Ht] _ IH]; intros campos; [reflexivity|].
  cbn [fst snd] in Hne, Ht.
  cbn [map fold_left fst snd]. rewrite <- IH. clear IH.
  assert (Hkt : truthy (VStr k) = true).
  { simpl. destruct (String.eqb_spec k ""); [contradiction|reflexivity]. }
  simpl in Hk, Hv.
  destruct Hk as [<-|[<-|[<-|[<-|[]]]]]; destruct Hv as [<-|[<-|[<-|[]]]];
    cbn [cargar_campos par get bind fst snd dict_get dict_get_or dict_find
         String.eqb Ascii.eqb Bool.eqb];
    repeat first [ rewrite or_none_l
                 | rewrite (or_truthy (VStr k) _ Hkt)
                 | rewrite (or_truthy v _ Ht) ];
    rewrite Hkt; reflexivity.
Qed.

Lemma pares_con_valores_no_nulos kn vn l resto :
  In kn ["Fields"; "Field"; "Nombre"; "name"] ->
  In vn ["Value"; "Valor"; "value"] ->
  Forall (fun kv => fst kv <> "" /\ truthy (snd kv) = true) l ->
  validar_factura (("Fields", VList (map (par kn vn) l)) :: resto)
  = validar_factura (("Fields", VDict (mapa_de l)) :: resto).
Proof.
  intros Hk Hv H. unfold validar_factura, normalizar.
  cbn [dict_find String.eqb Ascii.eqb Bool.eqb dict_get_or].
  rewrite (cargar_campos_pares kn vn l [] Hk Hv H). reflexivity.
Qed.

(** ** The numeric normaliser against its description *)

Lemma count_pos c s : (count c s >? 0) = ocurre c s.
Proof.
  unfold count, ocurre. induction (chars s) as [|d l IH]; [reflexivity|].
  simpl. destruct (Ascii.eqb c d); simpl; [|exact IH].
  destruct (filter _ l); reflexivity.
Qed.


Lemma rfind_from_separador l : forall i a b,
  a < i -> b < i ->
  (rfind_from "," l i a >? rfind_from "." l i b) =
  match separador_final l with
  | Some c => Ascii.eqb c ","
  | None => a >? b
  end.
Proof.
  induction l as [|d r IH]; intros i a b Ha Hb; [reflexivity|].
  cbn [rfind_from separador_final].
  rewrite IH by (destruct (Ascii.eqb _ d); lia).
  destruct (separador_final r) as [c|]; [reflexivity|].
  rewrite (Ascii.eqb_sym d "."), (Ascii.eqb_sym d ",").
  destruct (Ascii.eqb "," d) eqn:Ec.
  - apply Ascii.eqb_eq in Ec. subst d. cbn.
    rewrite Z.gtb_ltb. apply Z.ltb_lt. exact Hb.
  - destruct (Ascii.eqb "." d) eqn:Ep.
    + apply Ascii.eqb_eq in Ep. subst d. cbn.
      rewrite Z.gtb_ltb. apply Z.ltb_ge. lia.
    + reflexivity.
Qed.

Lemma rfind_decimal s :
  (rfind "," s >? rfind "." s) = decimal_es_coma s.
Proof.
  unfold rfind, decimal_es_coma. rewrite rfind_from_separador by lia.
  destruct (separador_final (chars s)); reflexivity.
Qed.

Lemma length_text l : String.length (text l) = List.length l.
Proof. induction l as [|c l IH]; simpl; [reflexivity | rewrite IH; reflexivity]. Qed.






(** * Further properties of the engine *)

(** ** The header rule set *)








(** X2.  The header rule set raises nothing but [AttributeError], and it
    raises it exactly when the header is not a mapping or its InvoiceDate is
    neither absent nor a text; otherwise it returns a report. *)
Theorem cabecera_solo_lanza_attribute_error :
  forall campos : value,
    (cabecera_legible campos = true -> exists errs, validar_campos_principales campos = Ok errs)
    /\ (cabecera_legible campos = false ->
        validar_campos_principales campos = Raise AttributeError).
Proof.
  intros campos. destruct campos as [| | | | | |d]; try (split; [discriminate | reflexivity]).
  unfold cabecera_legible, validar_campos_principales, get; cbn [bind].
  unfold regla_fecha.
  destruct (dict_get d "InvoiceDate") as [| | | |s| |]; cbn [esta_vacio es_fecha_valida bind];
    try (split; [discriminate | reflexivity]).
  - split; [intros _; eexists; reflexivity | discriminate].
  - split; [intros _ | discriminate].
    destruct (_ || _); [eexists; reflexivity|].
    destruct (String.eqb (strip s) ""); cbn [bind]; eexists; reflexivity.
Qed.

Lemma cabecera_solo_lanza_attribute_error_witness :
  validar_campos_principales (VDict [("InvoiceDate", VFloat zero)]) = Raise AttributeError.
Proof.
  apply (proj2 (cabecera_solo_lanza_attribute_error (VDict [("InvoiceDate", VFloat zero)]))).
  reflexivity.
Defined.

Lemma subsecuencia_app {A : Type} (l1 l2 m1 m2 : list A) :
  subsecuencia l1 m1 -> subsecuencia l2 m2 -> subsecuencia (l1 ++ l2) (m1 ++ m2).
Proof.
  intros H1 H2. induction H1; cbn [app]; [assumption | | ]; constructor; assumption.
Qed.

Lemma subsecuencia_length {A : Type} (l m : list A) :
  subsecuencia l m -> (List.length l <= List.length m)%nat.
Proof. intros H. induction H; simpl; lia. Qed.

(** The labels of one rule's errors: none, or the rule's label once. *)
Lemma etiquetas_de_regla c l :
  todos_de c l -> (List.length l <= 1)%nat -> subsecuencia (map campo l) [c].
Proof.
  intros H Hl. destruct H as [|e l He H].
  - repeat constructor.
  - destruct l; [|simpl in Hl; lia]. simpl. rewrite He. apply sub_take, sub_nil.
Qed.

(** X3.  The labels of a header report always come in the fixed order of
    the fifteen fields, each at most once; so a report has at most fifteen
    errors. *)
Theorem cabecera_en_orden_fijo :
  forall (campos : value) (errs : list error),
    validar_campos_principales campos = Ok errs ->
    subsecuencia (map campo errs) (map etiqueta requeridos)
    /\ (List.length errs <= 15)%nat.
Proof.
  intros campos errs Hok.
  assert (Hs : subsecuencia (map campo errs) (map etiqueta requeridos)).
  { destruct (validar_campos_principales_inv _ _ Hok) as (d & e_fecha & -> & Hf & ->).
    rewrite !map_app.
    change (map etiqueta requeridos) with
      ([etiqueta Supplier] ++ [etiqueta SupplierAddress] ++ [etiqueta SupplierTaxID]
       ++ [etiqueta Customer] ++ [etiqueta CustomerAddress] ++ [etiqueta CustomerTaxID]
       ++ [etiqueta InvoiceNumber] ++ [etiqueta InvoiceDate] ++ [etiqueta Incoterm]
       ++ [etiqueta PortOfLoading] ++ [etiqueta PortOfDischarge] ++ [etiqueta CountryOfOrigin]
       ++ [etiqueta PaymentTerms] ++ [etiqueta Currency] ++ [etiqueta TotalInvoiceValue])%list.
    repeat apply subsecuencia_app;
      apply etiquetas_de_regla;
      first [ apply si_vacio_de | apply si_vacio_length
            | exact (regla_fecha_de _ _ Hf) | exact (regla_fecha_length _ _ Hf)
            | apply regla_incoterm_de | apply regla_incoterm_length
            | apply regla_moneda_de | apply regla_moneda_length
            | apply regla_valor_total_de | apply regla_valor_total_length ]. }
  split; [exact Hs|].
  apply subsecuencia_length in Hs. rewrite !length_map in Hs. exact Hs.
Qed.

Lemma cabecera_en_orden_fijo_witness :
  subsecuencia (map campo errores_cabecera_fob) (map etiqueta requeridos)
  /\ (List.length errores_cabecera_fob <= 15)%nat.
Proof.
  apply (cabecera_en_orden_fijo cabecera_fob errores_cabecera_fob). reflexivity.
Defined.

(** ** The item rule set *)










Lemma de_un_item_nil k : de_un_item k [].
Proof. split; [constructor | simpl; lia]. Qed.

Lemma de_un_item_uno k e : es_de_producto k e -> de_un_item k [e].
Proof. intros H. split; [repeat constructor; exact H | simpl; lia]. Qed.

Ltac etiqueta_item :=
  first [ exists "Descripción "; reflexivity
        | exists "Cantidad "; reflexivity
        | exists "Unidad "; reflexivity
        | exists "Precio Unitario "; reflexivity
        | exists "Valor Total Ítem "; reflexivity
        | exists "Código HS "; reflexivity
        | exists "Peso "; reflexivity
        | exists "Número de Paquetes "; reflexivity
        | exists "Moneda "; reflexivity ].

Lemma si_vacio_item k v e : es_de_producto k e -> de_un_item k (si_vacio v e).
Proof.
  intros H. unfold si_vacio.
  destruct (esta_vacio v); [apply de_un_item_uno; exact H | apply de_un_item_nil].
Qed.

Lemma regla_numerica_item k v e1 e2 :
  es_de_producto k e1 -> es_de_producto k e2 -> de_un_item k (regla_numerica v e1 e2).
Proof.
  intros H1 H2. unfold regla_numerica.
  destruct (esta_vacio v); [apply de_un_item_uno; exact H1|].
  destruct (parse_numeric v); [apply de_un_item_nil | apply de_un_item_uno; exact H2].
Qed.

Lemma regla_hs_item k v : de_un_item k (regla_hs k v).
Proof.
  unfold regla_hs. destruct (esta_vacio v); [apply de_un_item_uno; etiqueta_item|].
  destruct (_ || _); [apply de_un_item_uno; etiqueta_item | apply de_un_item_nil].
Qed.

Lemma regla_packages_item k v l : regla_packages k v = Ok l -> de_un_item k l.
Proof.
  unfold regla_packages. destruct (esta_vacio v).
  - intros [= <-]. apply de_un_item_uno. etiqueta_item.
  - destruct (parse_numeric v) as [x|].
    + destruct (int_of_float x) as [n|]; cbn [bind]; [|discriminate].
      intros [= <-]. destruct (negb _); [apply de_un_item_uno; etiqueta_item | apply de_un_item_nil].
    + intros [= <-]. apply de_un_item_uno. etiqueta_item.
Qed.

Lemma regla_moneda_item_item k a b : de_un_item k (regla_moneda_item k a b).
Proof.
  unfold regla_moneda_item. destruct (_ && _); [|apply de_un_item_nil].
  destruct (negb _); [apply de_un_item_uno; etiqueta_item | apply de_un_item_nil].
Qed.

Lemma regla_coherencia_item k a b c q p s : de_un_item k (regla_coherencia k a b c q p s).
Proof.
  unfold regla_coherencia.
  destruct q as [|[q|]], p as [|[p|]], s as [|[s|]]; try apply de_un_item_nil.
  destruct (gt _ _); [apply de_un_item_uno; etiqueta_item | apply de_un_item_nil].
Qed.

Lemma de_un_item_app k l1 l2 n :
  de_un_item k l1 ->
  Forall (es_de_producto k) l2 /\ (List.length l2 <= n)%nat ->
  Forall (es_de_producto k) (l1 ++ l2) /\ (List.length (l1 ++ l2) <= S n)%nat.
Proof.
  intros [F1 L1] [F2 L2]. split; [apply Forall_app; auto|].
  rewrite length_app. lia.
Qed.

Lemma validar_item_nuevos moneda idx item st st' :
  validar_item moneda idx item st = Ok st' ->
  exists nuevos,
    errores st' = (errores st ++ nuevos)%list
    /\ Forall (es_de_producto idx) nuevos
    /\ (List.length nuevos <= 10)%nat.
Proof.
  intros H.
  destruct (validar_item_inv _ _ _ _ _ H) as (d & e_packages & _ & Hp & _ & _ & _ & _ & ->).
  eexists. split; [reflexivity|].
  repeat (apply de_un_item_app;
          [first [ apply si_vacio_item; etiqueta_item
                 | apply regla_numerica_item; etiqueta_item
                 | apply regla_hs_item
                 | exact (regla_packages_item _ _ _ Hp)
                 | apply regla_moneda_item_item ]|]).
  apply regla_coherencia_item.
Qed.

Lemma bucle_nuevos moneda items : forall idx st st',
  bucle moneda idx items st = Ok st' ->
  exists nuevos,
    errores st' = (errores st ++ nuevos)%list
    /\ Forall (fun e => exists k, idx <= k < idx + Z.of_nat (List.length items)
                                  /\ es_de_producto k e) nuevos
    /\ (List.length nuevos <= 10 * List.length items)%nat.
Proof.
  induction items as [|item resto IH]; intros idx st st' H.
  - cbn in H. injection H as <-. exists []. rewrite app_nil_r.
    split; [reflexivity | split; [constructor | simpl; lia]].
  - cbn [bucle] in H.
    destruct (validar_item moneda idx item st) as [st1|] eqn:H1; cbn [bind] in H; [|discriminate H].
    destruct (validar_item_nuevos _ _ _ _ _ H1) as (n1 & E1 & F1 & L1).
    destruct (IH _ _ _ H) as (n2 & E2 & F2 & L2).
    exists (n1 ++ n2)%list. split; [rewrite E2, E1, app_assoc; reflexivity|].
    split.
    + apply Forall_app. split.
      * eapply Forall_impl; [|exact F1]. intros e He. exists idx.
        split; [cbn [List.length]; lia | exact He].
      * eapply Forall_impl; [|exact F2]. intros e (k & Hk & He). exists k.
        split; [cbn [List.length]; lia | exact He].
    + rewrite length_app. cbn [List.length]. lia.
Qed.

(** X6.  Every error of a report of [validar_items] is either the
    reconciliation error or carries in its label the index, counted from 1,
    of an item of the sequence; no item accounts for more than ten errors,
    so [n] items give at most [10 n + 1]. *)
Theorem errores_de_items_atribuibles :
  forall (items moneda : value) (total : option float) (errs : list error),
    validar_items items moneda total = Ok errs ->
    exists elementos,
      iterate items = Ok elementos
      /\ Forall (fun e => campo e = "Valor Total vs Suma Ítems"
                          \/ exists k, 1 <= k <= Z.of_nat (List.length elementos)
                                       /\ es_de_producto k e) errs
      /\ (List.length errs <= 10 * List.length elementos + 1)%nat.
Proof.
  intros items moneda total errs H. unfold validar_items in H.
  destruct (iterate items) as [l|] eqn:Hi; cbn [bind] in H; [|discriminate H].
  destruct (bucle moneda 1 l estado_inicial) as [st|] eqn:Hb; cbn [bind] in H; [|discriminate H].
  injection H as <-. exists l. split; [reflexivity|].
  destruct (bucle_nuevos _ _ _ _ _ Hb) as (nuevos & E & F & L).
  cbn [errores estado_inicial app] in E. rewrite E.
  split.
  - apply Forall_app. split.
    + eapply Forall_impl; [|exact F]. intros e (k & Hk & He). right. exists k.
      split; [lia | exact He].
    + unfold reconciliacion. destruct total as [t|]; [|constructor].
      destruct (gt _ _); repeat constructor.
  - rewrite length_app.
    assert ((List.length (reconciliacion (suma_items st) total) <= 1)%nat).
    { unfold reconciliacion. destruct total as [t|]; [|simpl; lia].
      destruct (gt _ _); simpl; lia. }
    lia.
Qed.

Lemma errores_de_items_atribuibles_witness :
  exists elementos,
    iterate (VList items_completos) = Ok elementos
    /\ Forall (fun e => campo e = "Valor Total vs Suma Ítems"
                        \/ exists k, 1 <= k <= Z.of_nat (List.length elementos)
                                     /\ es_de_producto k e)
              (errores estado_items_completos ++ [])
    /\ (List.length (errores estado_items_completos ++ []) <= 10 * List.length elementos + 1)%nat.
Proof.
  apply (errores_de_items_atribuibles (VList items_completos) VNone None).
  vm_compute. reflexivity.
Defined.

(** ** The engine as a whole, continued *)

(** X7.  A record with none of the keys "Table", "Items" and "Productos"
    has no items: [validar_factura] returns exactly when the header rule
    set does, and the report is the header errors followed by the
    reconciliation of a sum of 0.0 against the declared total. *)
Theorem factura_sin_items :
  forall data : dict,
    dict_has data "Table" = false ->
    dict_has data "Items" = false ->
    dict_has data "Productos" = false ->
    forall campos : value,
      normalizar data = Ok campos ->
      validar_factura data =
        (e_campos <- validar_campos_principales campos ;;
         total <- get campos "TotalInvoiceValue" ;;
         let errs := (e_campos ++ reconciliacion zero (parse_numeric total))%list in
         Ok {| resultado := match errs with [] => "Cumple" | _ => "No cumple" end;
               errores_totales := errs |}).
Proof.
  intros data H1 H2 H3 campos Hn.
  unfold validar_factura, seleccionar_items. rewrite Hn, H1, H2, H3. cbn [bind].
  destruct (validar_campos_principales campos) as [e_campos|] eqn:Hc; cbn [bind]; [|reflexivity].
  destruct (validar_campos_principales_inv _ _ Hc) as (d & _ & -> & _ & _).
  unfold get; cbn [bind]. rewrite parse_numeric_none_guard.
  cbn [validar_items iterate bind bucle errores suma_items estado_inicial app].
  destruct (e_campos ++ _)%list; reflexivity.
Qed.

Lemma factura_sin_items_witness :
  validar_factura [("InvoiceDate", VStr "2024-01-01"); ("TotalInvoiceValue", VStr "5")] =
    (e_campos <- validar_campos_principales
                   (VDict [("InvoiceDate", VStr "2024-01-01"); ("TotalInvoiceValue", VStr "5")]) ;;
     total <- get (VDict [("InvoiceDate", VStr "2024-01-01"); ("TotalInvoiceValue", VStr "5")])
                  "TotalInvoiceValue" ;;
     let errs := (e_campos ++ reconciliacion zero (parse_numeric total))%list in
     Ok {| resultado := match errs with [] => "Cumple" | _ => "No cumple" end;
           errores_totales := errs |}).
Proof.
  apply (factura_sin_items [("InvoiceDate", VStr "2024-01-01"); ("TotalInvoiceValue", VStr "5")]);
    reflexivity.
Defined.

(** ** Texts and the numeric normaliser *)

Lemma chars_text l : chars (text l) = l.
Proof. apply list_ascii_of_string_of_list_ascii. Qed.

Lemma text_chars s : text (chars s) = s.
Proof. apply string_of_list_ascii_of_string. Qed.


Lemma lstrip_chars_keep c r : is_space c = false -> lstrip_chars (c :: r) = c :: r.
Proof. intros H. simpl. rewrite H. reflexivity. Qed.


Lemma lstrip_chars_last x c :
  is_space c = false -> exists y, lstrip_chars (x ++ [c]) = (y ++ [c])%list.
Proof.
  intros H. induction x as [|a x IH]; simpl.
  - rewrite H. exists []. reflexivity.
  - destruct (is_space a); [exact IH|]. exists (a :: x). reflexivity.
Qed.

Lemma rstrip_chars_head c r :
  is_space c = false -> exists r', rstrip_chars (c :: r) = c :: r'.
Proof.
  intros H. unfold rstrip_chars. simpl.
  destruct (lstrip_chars_last (rev r) c H) as [y ->].
  rewrite rev_app_distr. simpl. eexists. reflexivity.
Qed.




(** A text that starts with a character that is not a blank keeps it. *)
Lemma strip_head c x : is_space c = false -> exists y, strip (String c x) = String c y.
Proof.
  intros H. unfold strip, chars. cbn [list_ascii_of_string].
  rewrite (lstrip_chars_keep _ _ H).
  destruct (rstrip_chars_head c (list_ascii_of_string x) H) as [r' ->].
  eexists. reflexivity.
Qed.





Lemma intercambiar_char_space c : is_space (intercambiar_char c) = is_space c.
Proof.
  unfold intercambiar_char.
  destruct (Ascii.eqb_spec c ".") as [->|_]; [reflexivity|].
  destruct (Ascii.eqb_spec c ",") as [->|_]; reflexivity.
Qed.

Lemma intercambiar_char_coma c : Ascii.eqb "," (intercambiar_char c) = Ascii.eqb "." c.
Proof.
  unfold intercambiar_char.
  destruct (Ascii.eqb_spec c ".") as [->|H1]; [reflexivity|].
  destruct (Ascii.eqb_spec c ",") as [->|H2]; [reflexivity|].
  destruct (Ascii.eqb_spec "," c) as [<-|_]; [contradiction H2; reflexivity|].
  destruct (Ascii.eqb_spec "." c) as [<-|_]; [contradiction H1|]; reflexivity.
Qed.

Lemma intercambiar_char_punto c : Ascii.eqb "." (intercambiar_char c) = Ascii.eqb "," c.
Proof.
  unfold intercambiar_char.
  destruct (Ascii.eqb_spec c ".") as [->|H1]; [reflexivity|].
  destruct (Ascii.eqb_spec c ",") as [->|H2]; [reflexivity|].
  destruct (Ascii.eqb_spec "," c) as [<-|_]; [contradiction H2; reflexivity|].
  destruct (Ascii.eqb_spec "." c) as [<-|_]; [contradiction H1|]; reflexivity.
Qed.

Lemma lstrip_chars_map l :
  lstrip_chars (map intercambiar_char l) = map intercambiar_char (lstrip_chars l).
Proof.
  induction l as [|c l IH]; [reflexivity|].
  simpl. rewrite intercambiar_char_space. destruct (is_space c); [exact IH | reflexivity].
Qed.

Lemma strip_intercambiar s : strip (intercambiar s) = intercambiar (strip s).
Proof.
  unfold strip, intercambiar, rstrip_chars. rewrite !chars_text.
  rewrite lstrip_chars_map, <- map_rev, lstrip_chars_map, map_rev. reflexivity.
Qed.

Lemma intercambiar_vacio s : String.eqb (intercambiar s) "" = String.eqb s "".
Proof. destruct s; reflexivity. Qed.

Lemma ocurre_intercambiar_coma s : ocurre "," (intercambiar s) = ocurre "." s.
Proof.
  unfold ocurre, intercambiar. rewrite chars_text.
  induction (chars s) as [|c l IH]; [reflexivity|].
  cbn [map existsb]. rewrite intercambiar_char_coma, IH. reflexivity.
Qed.

Lemma ocurre_intercambiar_punto s : ocurre "." (intercambiar s) = ocurre "," s.
Proof.
  unfold ocurre, intercambiar. rewrite chars_text.
  induction (chars s) as [|c l IH]; [reflexivity|].
  cbn [map existsb]. rewrite intercambiar_char_punto, IH. reflexivity.
Qed.

Lemma separador_final_map l :
  separador_final (map intercambiar_char l) = option_map intercambiar_char (separador_final l).
Proof.
  induction l as [|c l IH]; [reflexivity|].
  cbn [map separador_final]. rewrite IH.
  destruct (separador_final l) as [d|]; [reflexivity|]. cbn [option_map].
  unfold intercambiar_char.
  destruct (Ascii.eqb_spec c ".") as [->|H1]; [reflexivity|].
  destruct (Ascii.eqb_spec c ",") as [->|H2]; [reflexivity|].
  cbn [orb]. destruct (Ascii.eqb_spec c ".") as [->|_]; [contradiction H1; reflexivity|].
  destruct (Ascii.eqb_spec c ",") as [->|_]; [contradiction H2; reflexivity|]. reflexivity.
Qed.

Lemma separador_final_es_separador l c :
  separador_final l = Some c -> c = "."%char \/ c = ","%char.
Proof.
  induction l as [|d l IH]; [discriminate|].
  cbn [separador_final]. destruct (separador_final l) as [e|].
  - intros [= <-]. apply IH. reflexivity.
  - destruct (Ascii.eqb_spec d ".") as [->|_]; [intros [= <-]; auto|].
    destruct (Ascii.eqb_spec d ",") as [->|_]; [intros [= <-]; auto | discriminate].
Qed.

Lemma separador_final_ocurre l :
  existsb (Ascii.eqb ",") l = true -> separador_final l <> None.
Proof.
  induction l as [|d l IH]; [discriminate|].
  cbn [existsb separador_final]. intros H.
  destruct (separador_final l) as [e|]; [discriminate|].
  destruct (Ascii.eqb_spec "," d) as [<-|_]; [cbn; discriminate|].
  cbn [orb] in H. exfalso. apply (IH H). reflexivity.
Qed.

Lemma decimal_es_coma_intercambiar s :
  ocurre "," s = true ->
  decimal_es_coma (intercambiar s) = negb (decimal_es_coma s).
Proof.
  intros H. unfold decimal_es_coma, intercambiar. rewrite chars_text, separador_final_map.
  pose proof (separador_final_ocurre _ H) as Hn.
  destruct (separador_final (chars s)) as [c|] eqn:E; [|contradiction Hn; reflexivity].
  destruct (separador_final_es_separador _ _ E) as [-> | ->]; reflexivity.
Qed.

Lemma chars_replace c by_ s :
  chars (replace c by_ s) =
  flat_map (fun d => if Ascii.eqb c d then chars by_ else [d]) (chars s).
Proof. unfold replace. apply chars_text. Qed.

Lemma flat_map_flat_map {A B C : Type} (f : A -> list B) (g : B -> list C) l :
  flat_map g (flat_map f l) = flat_map (fun x => flat_map g (f x)) l.
Proof.
  induction l as [|x l IH]; [reflexivity|].
  simpl. rewrite flat_map_app, IH. reflexivity.
Qed.

Ltac por_caracter :=
  let c := fresh "c" in
  intros c; unfold intercambiar_char;
  destruct (Ascii.eqb_spec c ".") as [->|?]; [reflexivity|];
  destruct (Ascii.eqb_spec c ",") as [->|?]; [reflexivity|];
  repeat match goal with
         | |- context [Ascii.eqb ?a c] =>
             destruct (Ascii.eqb_spec a c); [subst; congruence|]
         end;
  cbn [flat_map app chars list_ascii_of_string];
  repeat match goal with
         | |- context [Ascii.eqb ?a c] =>
             destruct (Ascii.eqb_spec a c); [subst; congruence|]
         end;
  reflexivity.

(** Stripping the commas of the exchanged text, or stripping the points
    and turning the commas into points, gives the same text. *)
Lemma limpiar_intercambiado_1 s :
  replace "," "" (intercambiar s) = replace "," "." (replace "." "" s).
Proof.
  rewrite <- (text_chars (replace "," "" (intercambiar s))).
  rewrite <- (text_chars (replace "," "." (replace "." "" s))).
  f_equal. rewrite !chars_replace. unfold intercambiar. rewrite chars_text.
  rewrite flat_map_flat_map, flat_map_concat_map, map_map, <- flat_map_concat_map.
  apply flat_map_ext. por_caracter.
Qed.

Lemma limpiar_intercambiado_2 s :
  replace "," "." (replace "." "" (intercambiar s)) = replace "," "" s.
Proof.
  rewrite <- (text_chars (replace "," "." (replace "." "" (intercambiar s)))).
  rewrite <- (text_chars (replace "," "" s)).
  f_equal. rewrite !chars_replace. unfold intercambiar. rewrite chars_text.
  rewrite flat_map_flat_map, flat_map_concat_map, map_map, <- flat_map_concat_map.
  apply flat_map_ext. por_caracter.
Qed.

(** X10.  When a numeral has both a point and a comma, exchanging the two
    does not change the number read: the European and the English spelling
    of a number are the same number ("1.234,56" and "1,234.56"). *)
Theorem punto_y_coma_intercambiables :
  forall s : string,
    ocurre "." (strip s) = true ->
    ocurre "," (strip s) = true ->
    parse_numeric (VStr (intercambiar s)) = parse_numeric (VStr s).
Proof.
  intros s Hp Hc.
  unfold parse_numeric, str. cbv zeta.
  rewrite strip_intercambiar. generalize dependent (strip s). clear s. intros t Hp Hc.
  rewrite intercambiar_vacio.
  destruct (String.eqb t ""); [reflexivity|].
  rewrite !count_pos, !rfind_decimal.
  rewrite ocurre_intercambiar_coma, ocurre_intercambiar_punto, Hp, Hc. cbn [andb].
  rewrite (decimal_es_coma_intercambiar t Hc).
  unfold float_or_none.
  destruct (decimal_es_coma t); cbn [negb].
  - rewrite limpiar_intercambiado_1. reflexivity.
  - rewrite limpiar_intercambiado_2. reflexivity.
Qed.

Lemma punto_y_coma_intercambiables_witness :
  parse_numeric (VStr (intercambiar "1.234,56")) = parse_numeric (VStr "1.234,56").
Proof. apply (punto_y_coma_intercambiables "1.234,56"); reflexivity. Defined.

(** ** The patterns *)



Lemma matches_alt a b l : Re.matches (Re.Alt a b) l = Re.matches a l || Re.matches b l.
Proof. revert a b. induction l as [|c l IH]; intros a b; simpl; [reflexivity | apply IH]. Qed.

Lemma matches_seq_nothing r l : Re.matches (Re.Seq Re.Nothing r) l = false.
Proof. induction l; simpl; auto. Qed.

Lemma matches_seq_eps r l : Re.matches (Re.Seq Re.Eps r) l = Re.matches r l.
Proof.
  destruct l as [|c l]; [reflexivity|].
  simpl. rewrite matches_alt, matches_seq_nothing. reflexivity.
Qed.

Lemma matches_seq_cls p r l :
  Re.matches (Re.Seq (Re.Cls p) r) l =
  match l with
  | [] => false
  | c :: l' => p c && Re.matches r l'
  end.
Proof.
  destruct l as [|c l]; [reflexivity|].
  simpl. destruct (p c); [apply matches_seq_eps | apply matches_seq_nothing].
Qed.


Lemma matches_seq a b l :
  Re.matches (Re.Seq a b) l = true <->
  exists l1 l2, l = (l1 ++ l2)%list /\ Re.matches a l1 = true /\ Re.matches b l2 = true.
Proof.
  revert a. induction l as [|c l IH]; intros a.
  - simpl. rewrite Bool.andb_true_iff. split.
    + intros [H1 H2]. exists [], []. auto.
    + intros (l1 & l2 & E & H1 & H2). symmetry in E.
      apply app_eq_nil in E. destruct E as [-> ->]. auto.
  - cbn [Re.matches Re.deriv]. destruct (Re.nullable a) eqn:N.
    + rewrite matches_alt, Bool.orb_true_iff, IH. split.
      * intros [(l1 & l2 & -> & H1 & H2)|H].
        -- exists (c :: l1), l2. auto.
        -- exists [], (c :: l). auto.
      * intros (l1 & l2 & E & H1 & H2). destruct l1 as [|c' l1].
        -- right. cbn [app] in E. subst l2. exact H2.
        -- left. injection E as <- ->. exists l1, l2. auto.
    + rewrite IH. split.
      * intros (l1 & l2 & -> & H1 & H2). exists (c :: l1), l2. auto.
      * intros (l1 & l2 & E & H1 & H2). destruct l1 as [|c' l1].
        -- simpl in H1. congruence.
        -- injection E as <- ->. exists l1, l2. auto.
Qed.


Lemma matches_star_cls p l : Re.matches (Re.Star (Re.Cls p)) l = forallb p l.
Proof.
  induction l as [|c l IH]; [reflexivity|].
  cbn [Re.matches Re.deriv forallb]. destruct (p c); cbn [andb].
  - rewrite matches_seq_eps. exact IH.
  - apply matches_seq_nothing.
Qed.

Lemma matches_plus_cls p l :
  Re.matches (Re.Plus (Re.Cls p)) l = match l with [] => false | _ => forallb p l end.
Proof.
  unfold Re.Plus. rewrite matches_seq_cls. destruct l as [|c l]; [reflexivity|].
  rewrite matches_star_cls. reflexivity.
Qed.













(** ** Whole numbers *)

Lemma digito_hechos c :
  is_digit c = true ->
  is_space c = false
  /\ Ascii.eqb "_" c = false
  /\ Ascii.eqb "," c = false
  /\ Ascii.eqb "." c = false
  /\ Ascii.eqb (lower_char c) "i" = false
  /\ Ascii.eqb (lower_char c) "n" = false
  /\ (forall r, parse_sign (c :: r) = (false, c :: r)).
Proof.
  destruct c as [[] [] [] [] [] [] [] []]; intros H; vm_compute in H; try discriminate H;
    repeat split.
Qed.

Lemma forallb_rev {A : Type} (f : A -> bool) l : forallb f (rev l) = forallb f l.
Proof.
  induction l as [|x l IH]; [reflexivity|].
  simpl. rewrite forallb_app, IH. simpl. rewrite Bool.andb_true_r. apply Bool.andb_comm.
Qed.

Lemma lstrip_chars_sin_blancos l :
  forallb (fun c => negb (is_space c)) l = true -> lstrip_chars l = l.
Proof.
  destruct l as [|c l]; [reflexivity|]. simpl. intros H. apply andb_prop in H.
  destruct H as [H _]. apply Bool.negb_true_iff in H. rewrite H. reflexivity.
Qed.

Lemma strip_sin_blancos l :
  forallb (fun c => negb (is_space c)) l = true -> strip (text l) = text l.
Proof.
  intros H. unfold strip, rstrip_chars. rewrite chars_text.
  rewrite (lstrip_chars_sin_blancos l H).
  rewrite lstrip_chars_sin_blancos by (rewrite forallb_rev; exact H).
  rewrite rev_involutive. reflexivity.
Qed.

Lemma span_digits_todos l : forallb is_digit l = true -> span_digits l = (l, []).
Proof.
  induction l as [|c l IH]; [reflexivity|].
  cbn [forallb span_digits]. intros H. apply andb_prop in H. destruct H as [Hc H].
  rewrite Hc, (IH H). reflexivity.
Qed.

Lemma numeral_hechos neg c r :
  forallb is_digit (c :: r) = true ->
  forallb (fun d => negb (is_space d)) (signo neg ++ c :: r) = true
  /\ existsb (Ascii.eqb "_") (signo neg ++ c :: r) = false
  /\ existsb (Ascii.eqb ",") (signo neg ++ c :: r) = false
  /\ existsb (Ascii.eqb ".") (signo neg ++ c :: r) = false
  /\ parse_sign (signo neg ++ c :: r) = (neg, c :: r).
Proof.
  intros H.
  assert (Hall : forall d, In d (c :: r) -> is_digit d = true)
    by (apply forallb_forall; exact H).
  assert (H1 : forallb (fun d => negb (is_space d)) (c :: r) = true).
  { apply forallb_forall. intros d Hd.
    destruct (digito_hechos d (Hall d Hd)) as (E & _). rewrite E. reflexivity. }
  assert (H2 : forall x, In x ["_"; ","; "."]%char -> existsb (Ascii.eqb x) (c :: r) = false).
  { intros x Hx. apply Bool.not_true_is_false. intros E.
    apply existsb_exists in E. destruct E as (d & Hd & E).
    destruct (digito_hechos d (Hall d Hd)) as (_ & E1 & E2 & E3 & _).
    simpl in Hx. destruct Hx as [<-|[<-|[<-|[]]]]; congruence. }
  apply andb_prop in H. destruct H as [Hc _].
  destruct (digito_hechos c Hc) as (_ & _ & _ & _ & _ & _ & Hs).
  split; [rewrite forallb_app, H1; destruct neg; reflexivity|].
  split; [rewrite existsb_app, H2 by (simpl; auto); destruct neg; reflexivity|].
  split; [rewrite existsb_app, H2 by (simpl; auto); destruct neg; reflexivity|].
  split; [rewrite existsb_app, H2 by (simpl; auto); destruct neg; reflexivity|].
  destruct neg; [reflexivity | apply Hs].
Qed.

Lemma of_string_numeral neg c r :
  forallb is_digit (c :: r) = true ->
  of_string (text (signo neg ++ c :: r)) = Some (of_decimal neg (digits_value (c :: r)) 0).
Proof.
  intros H. destruct (numeral_hechos neg c r H) as (Hb & Hu & _ & _ & Hs).
  unfold of_string. rewrite chars_text, Hu.
  replace (rstrip_chars (lstrip_chars (signo neg ++ c :: r))) with (signo neg ++ c :: r)%list.
  2:{ pose proof (strip_sin_blancos _ Hb) as E. unfold strip in E. rewrite chars_text in E.
      apply (f_equal chars) in E. rewrite !chars_text in E. symmetry. exact E. }
  assert (Hc : is_digit c = true) by (cbn [forallb] in H; apply andb_prop in H; tauto).
  destruct (digito_hechos c Hc) as (_ & _ & _ & _ & Hi & Hn & _).
  assert (Hinf : inf_or_nan (signo neg ++ c :: r) = None).
  { unfold inf_or_nan. rewrite Hs. unfold lower. rewrite chars_text.
    cbn [map text string_of_list_ascii String.eqb]. rewrite Hi, Hn. reflexivity. }
  rewrite Hinf. unfold parse_decimal. rewrite Hs, (span_digits_todos _ H).
  rewrite app_nil_r. reflexivity.
Qed.

Lemma matches_re_entero neg c r :
  forallb is_digit (c :: r) = true ->
  Re.fullmatch re_entero (text (signo neg ++ c :: r)) = true.
Proof.
  intros H. unfold Re.fullmatch, re_entero. rewrite chars_text.
  apply matches_seq. exists (signo neg), (c :: r). split; [reflexivity|]. split.
  - destruct neg; reflexivity.
  - unfold Re.digit. rewrite matches_plus_cls. exact H.
Qed.

Lemma parse_numeric_numeral neg c r :
  forallb is_digit (c :: r) = true ->
  parse_numeric (VStr (text (signo neg ++ c :: r)))
  = Some (of_decimal neg (digits_value (c :: r)) 0).
Proof.
  intros H. destruct (numeral_hechos neg c r H) as (Hb & _ & Hc & Hp & _).
  unfold parse_numeric, str. cbv zeta. rewrite (strip_sin_blancos _ Hb).
  replace (String.eqb (text (signo neg ++ c :: r)) "") with false by (destruct neg; reflexivity).
  rewrite !count_pos. unfold ocurre. rewrite chars_text, Hc, Hp. cbn [andb].
  rewrite (matches_re_entero neg c r H). unfold float_or_none.
  apply of_string_numeral. exact H.
Qed.

Lemma uint_digitos u : forallb is_digit (chars (NilEmpty.string_of_uint u)) = true.
Proof. induction u; cbn [NilEmpty.string_of_uint chars list_ascii_of_string forallb]; auto. Qed.

Lemma uint_valor_acc u : forall p : positive,
  fold_left (fun acc c => 10 * acc + (Z.of_N (code c) - 48))
            (chars (NilEmpty.string_of_uint u)) (Zpos p)
  = Zpos (Pos.of_uint_acc u p).
Proof.
  induction u; intros p;
    cbn [NilEmpty.string_of_uint chars list_ascii_of_string fold_left Pos.of_uint_acc];
    [reflexivity|..];
    match goal with
    | |- fold_left _ _ ?a = Zpos (Pos.of_uint_acc _ ?q) =>
        replace a with (Zpos q) by (vm_compute (Z.of_N (code _)); lia)
    end; apply IHu.
Qed.

Lemma uint_valor u :
  digits_value (chars (NilEmpty.string_of_uint u)) = Z.of_N (Pos.of_uint u).
Proof.
  unfold digits_value.
  induction u;
    cbn [NilEmpty.string_of_uint chars list_ascii_of_string fold_left Pos.of_uint];
    [reflexivity | exact IHu | ..];
    match goal with
    | |- fold_left _ _ ?a = Z.of_N (Npos (Pos.of_uint_acc _ ?q)) =>
        replace a with (Zpos q) by (vm_compute; reflexivity)
    end; apply uint_valor_acc.
Qed.

(** X13.  A text of digits, with or without a minus sign in front, is read
    as the binary64 number nearest to the integer it spells; and a JSON
    integer, which the engine turns into such a text, is read as the
    binary64 number nearest to it, never as no value. *)
Theorem enteros_se_leen_por_su_valor :
  (forall (neg : bool) (l : list ascii),
      l <> [] ->
      forallb is_digit l = true ->
      parse_numeric (VStr (text (signo neg ++ l))) = Some (of_decimal neg (digits_value l) 0))
  /\ (forall n : Z,
        parse_numeric (VInt n) = Some (of_decimal (n <? 0) (Z.abs n) 0)).
Proof.
  assert (H1 : forall (neg : bool) (l : list ascii),
             l <> [] -> forallb is_digit l = true ->
             parse_numeric (VStr (text (signo neg ++ l)))
             = Some (of_decimal neg (digits_value l) 0)).
  { intros neg [|c r] Hne H; [contradiction Hne; reflexivity|].
    apply parse_numeric_numeral. exact H. }
  split; [exact H1|].
  intros n.
  assert (Hpos : forall p,
             chars (NilEmpty.string_of_uint (Pos.to_uint p)) <> []
             /\ digits_value (chars (NilEmpty.string_of_uint (Pos.to_uint p))) = Zpos p
             /\ NilZero.string_of_uint (Pos.to_uint p) = NilEmpty.string_of_uint (Pos.to_uint p)).
  { intros p. pose proof (DecimalPos.Unsigned.to_uint_nonnil p) as Hn.
    split; [|split].
    - destruct (Pos.to_uint p); [contradiction Hn; reflexivity | discriminate ..].
    - rewrite uint_valor, DecimalPos.Unsigned.of_to. reflexivity.
    - unfold NilZero.string_of_uint. destruct (Pos.to_uint p); [contradiction Hn|..]; reflexivity. }
  destruct n as [|p|p].
  - vm_compute. reflexivity.
  - destruct (Hpos p) as (Hne & Hv & Hs).
    pose proof (H1 false _ Hne (uint_digitos (Pos.to_uint p))) as E.
    cbn [signo app] in E. rewrite text_chars, Hv, <- Hs in E. exact E.
  - destruct (Hpos p) as (Hne & Hv & Hs).
    pose proof (H1 true _ Hne (uint_digitos (Pos.to_uint p))) as E.
    unfold text, chars in E, Hv. cbn [signo app string_of_list_ascii] in E.
    rewrite string_of_list_ascii_of_string, Hv, <- Hs in E. exact E.
Qed.

Lemma enteros_se_leen_por_su_valor_witness :
  parse_numeric (VStr (text (signo true ++ ["4"; "2"]%char)))
  = Some (of_decimal true (digits_value ["4"; "2"]%char) 0).
Proof.
  apply (proj1 enteros_se_leen_por_su_valor true ["4"; "2"]%char); [discriminate | reflexivity].
Defined.

(** ** Values that are not numerals *)

Lemma of_string_corchete c l :
  c = "["%char \/ c = "{"%char -> of_string (text (c :: l)) = None.
Proof.
  intros Hc. unfold of_string. rewrite chars_text.
  assert (Hclean : forall l1,
             match inf_or_nan (rstrip_chars (lstrip_chars (c :: l1))) with
             | Some x => Some x
             | None => parse_decimal (rstrip_chars (lstrip_chars (c :: l1)))
             end = None).
  { intros l1.
    assert (Hs : is_space c = false) by (destruct Hc as [-> | ->]; reflexivity).
    rewrite (lstrip_chars_keep c l1 Hs).
    destruct (rstrip_chars_head c l1 Hs) as [r' ->].
    destruct Hc as [-> | ->]; reflexivity. }
  destruct (existsb (Ascii.eqb "_") (c :: l)); [|apply Hclean].
  assert (Hd : drop_underscores "000" (c :: l) = option_map (cons c) (drop_underscores c l))
    by (destruct Hc as [-> | ->]; reflexivity).
  rewrite Hd. destruct (drop_underscores c l) as [l1|]; [apply Hclean | reflexivity].
Qed.

Lemma replace_head c0 by_ c x :
  Ascii.eqb c0 c = false -> replace c0 by_ (String c x) = String c (replace c0 by_ x).
Proof.
  intros H. unfold replace, chars. cbn [list_ascii_of_string flat_map]. rewrite H. reflexivity.
Qed.

Lemma float_or_none_corchete c x :
  c = "["%char \/ c = "{"%char -> float_or_none (String c x) = None.
Proof.
  intros Hc. unfold float_or_none. rewrite <- (text_chars (String c x)).
  unfold chars. cbn [list_ascii_of_string]. apply of_string_corchete. exact Hc.
Qed.

Lemma parse_numeric_corchete v c x :
  v <> VNone ->
  c = "["%char \/ c = "{"%char ->
  str v = String c x ->
  parse_numeric v = None.
Proof.
  intros Hv Hc Hs.
  assert (Hsp : is_space c = false) by (destruct Hc as [-> | ->]; reflexivity).
  assert (Hcm : Ascii.eqb "," c = false) by (destruct Hc as [-> | ->]; reflexivity).
  assert (Hpt : Ascii.eqb "." c = false) by (destruct Hc as [-> | ->]; reflexivity).
  destruct (strip_head c x Hsp) as [y Hy].
  destruct v; [contradiction Hv; reflexivity|..];
    unfold parse_numeric; cbv zeta; rewrite Hs, Hy;
    cbn [String.eqb];
    repeat match goal with
           | |- context [if ?b then _ else _] =>
               match b with
               | context [if _ then _ else _] => fail 1
               | _ => destruct b
               end
           | |- context [match split ?a ?b with _ => _ end] => destruct (split a b) as [|? [|? [|? ?]]]
           end;
    rewrite ?(replace_head "," _ c _ Hcm), ?(replace_head "." _ c _ Hpt);
    rewrite ?(replace_head "," _ c _ Hcm);
    first [reflexivity | apply float_or_none_corchete; exact Hc].
Qed.

(** X14.  A JSON boolean, array or object is never read as a number: a
    numeric field that holds one is always reported as invalid. *)
Theorem no_numerales_nunca_se_leen :
  (forall b : bool, parse_numeric (VBool b) = None)
  /\ (forall l : list value, parse_numeric (VList l) = None)
  /\ (forall d : list (string * value), parse_numeric (VDict d) = None)
  /\ (forall (v : value) (e1 e2 : error),
        match v with
        | VBool _ | VList _ | VDict _ => regla_numerica v e1 e2 = [e2]
        | _ => True
        end).
Proof.
  assert (Hb : forall b : bool, parse_numeric (VBool b) = None)
    by (intros []; vm_compute; reflexivity).
  assert (Hl : forall l : list value, parse_numeric (VList l) = None).
  { intros l. eapply (parse_numeric_corchete _ "["); [discriminate | auto | reflexivity]. }
  assert (Hd : forall d : list (string * value), parse_numeric (VDict d) = None).
  { intros d. eapply (parse_numeric_corchete _ "{"); [discriminate | auto | reflexivity]. }
  repeat split; auto.
  intros v e1 e2. destruct v; try exact I; unfold regla_numerica; cbn [esta_vacio];
    rewrite ?Hb, ?Hl, ?Hd; reflexivity.
Qed.

(** ** Dates *)

Lemma digito_hechos_de k :
  0 <= k <= 9 ->
  is_digit (digito k) = true
  /\ PyDate.digit_val (digito k) = k
  /\ is_space (digito k) = false.
Proof.
  intros H.
  assert (E : In k (map Z.of_nat (seq 0 10))).
  { replace k with (Z.of_nat (Z.to_nat k)) by lia. apply in_map, in_seq. lia. }
  simpl in E. repeat destruct E as [<-|E]; try contradiction; repeat split.
Qed.

Lemma en_rango lo n k :
  Z.of_nat lo <= k < Z.of_nat lo + Z.of_nat n -> In k (map Z.of_nat (seq lo n)).
Proof.
  intros H. replace k with (Z.of_nat (Z.to_nat k)) by lia. apply in_map, in_seq. lia.
Qed.

Lemma dia_dos d r :
  1 <= d <= 31 -> exists o, PyDate.day_alternatives (dos d ++ r) = (d, r) :: o.
Proof.
  intros H. assert (E : In d (map Z.of_nat (seq 1 31))) by (apply en_rango; lia).
  simpl in E. repeat destruct E as [<-|E]; try contradiction; eexists; reflexivity.
Qed.

Lemma mes_dos m r :
  1 <= m <= 12 -> exists o, PyDate.month_alternatives (dos m ++ r) = (m, r) :: o.
Proof.
  intros H. assert (E : In m (map Z.of_nat (seq 1 12))) by (apply en_rango; lia).
  simpl in E. repeat destruct E as [<-|E]; try contradiction; eexists; reflexivity.
Qed.

Lemma anio_cuatro y r :
  0 <= y <= 9999 -> PyDate.year_alternatives (cuatro y ++ r) = [(y, r)].
Proof.
  intros H.
  assert (Ha : 0 <= y / 1000 <= 9) by (Z.div_mod_to_equations; lia).
  assert (Hb : 0 <= y / 100 mod 10 <= 9) by (Z.div_mod_to_equations; lia).
  assert (Hc : 0 <= y / 10 mod 10 <= 9) by (Z.div_mod_to_equations; lia).
  assert (Hd : 0 <= y mod 10 <= 9) by (Z.div_mod_to_equations; lia).
  destruct (digito_hechos_de _ Ha) as (A1 & A2 & _).
  destruct (digito_hechos_de _ Hb) as (B1 & B2 & _).
  destruct (digito_hechos_de _ Hc) as (C1 & C2 & _).
  destruct (digito_hechos_de _ Hd) as (D1 & D2 & _).
  unfold cuatro, PyDate.year_alternatives. cbn [app].
  rewrite A1, B1, C1, D1. cbn [andb]. unfold PyDate.two. rewrite A2, B2, C2, D2.
  do 2 f_equal. Z.div_mod_to_equations. lia.
Qed.

Lemma dia_dos_fin d :
  1 <= d <= 31 -> exists o, PyDate.day_alternatives (dos d) = (d, []) :: o.
Proof. intros H. rewrite <- (app_nil_r (dos d)). apply dia_dos. exact H. Qed.

Lemma mes_dos_fin m :
  1 <= m <= 12 -> exists o, PyDate.month_alternatives (dos m) = (m, []) :: o.
Proof. intros H. rewrite <- (app_nil_r (dos m)). apply mes_dos. exact H. Qed.

Lemma anio_cuatro_fin y :
  0 <= y <= 9999 -> PyDate.year_alternatives (cuatro y) = [(y, [])].
Proof. intros H. rewrite <- (app_nil_r (cuatro y)). apply anio_cuatro. exact H. Qed.

Lemma paso_dia ts f l n r f' :
  (exists o, PyDate.day_alternatives l = (n, r) :: o) ->
  primera (PyDate.matches ts {| PyDate.year := PyDate.year f; PyDate.month := PyDate.month f;
                                 PyDate.day := n |} r) f' ->
  primera (PyDate.matches (PyDate.Day :: ts) f l) f'.
Proof.
  intros [o E] [o' E']. cbn [PyDate.matches]. rewrite E. cbn [flat_map]. rewrite E'.
  eexists. reflexivity.
Qed.

Lemma paso_mes ts f l n r f' :
  (exists o, PyDate.month_alternatives l = (n, r) :: o) ->
  primera (PyDate.matches ts {| PyDate.year := PyDate.year f; PyDate.month := n;
                                 PyDate.day := PyDate.day f |} r) f' ->
  primera (PyDate.matches (PyDate.Month :: ts) f l) f'.
Proof.
  intros [o E] [o' E']. cbn [PyDate.matches]. rewrite E. cbn [flat_map]. rewrite E'.
  eexists. reflexivity.
Qed.

Lemma paso_anio ts f l n r f' :
  PyDate.year_alternatives l = [(n, r)] ->
  primera (PyDate.matches ts {| PyDate.year := n; PyDate.month := PyDate.month f;
                                 PyDate.day := PyDate.day f |} r) f' ->
  primera (PyDate.matches (PyDate.Year :: ts) f l) f'.
Proof.
  intros E [o' E']. cbn [PyDate.matches]. rewrite E. cbn [flat_map]. rewrite E'.
  eexists. reflexivity.
Qed.

Lemma paso_literal ts f c r f' :
  primera (PyDate.matches ts f r) f' ->
  primera (PyDate.matches (PyDate.Literal c :: ts) f (c :: r)) f'.
Proof. intros H. cbn [PyDate.matches]. rewrite Ascii.eqb_refl. exact H. Qed.

Lemma paso_fin f : primera (PyDate.matches [] f []) f.
Proof. eexists. reflexivity. Qed.

Lemma valid_date_rangos y m d :
  PyDate.valid_date {| PyDate.year := y; PyDate.month := m; PyDate.day := d |} = true ->
  1 <= y <= 9999 /\ 1 <= m <= 12 /\ 1 <= d <= 31.
Proof.
  unfold PyDate.valid_date. cbn [PyDate.year PyDate.month PyDate.day].
  rewrite !Bool.andb_true_iff, !Z.leb_le. intros (((((H1 & H2) & H3) & H4) & H5) & H6).
  assert (PyDate.days_in_month y m <= 31).
  { unfold PyDate.days_in_month. destruct (m =? 2); [destruct (PyDate.is_leap y); lia|].
    destruct (_ || _); lia. }
  lia.
Qed.

Lemma dos_sin_blancos n : 0 <= n <= 99 -> forallb (fun c => negb (is_space c)) (dos n) = true.
Proof.
  intros H.
  assert (Ha : 0 <= n / 10 <= 9) by (Z.div_mod_to_equations; lia).
  assert (Hb : 0 <= n mod 10 <= 9) by (Z.div_mod_to_equations; lia).
  destruct (digito_hechos_de _ Ha) as (_ & _ & A). destruct (digito_hechos_de _ Hb) as (_ & _ & B).
  unfold dos. cbn [forallb]. rewrite A, B. reflexivity.
Qed.

Lemma cuatro_sin_blancos y : 0 <= y <= 9999 -> forallb (fun c => negb (is_space c)) (cuatro y) = true.
Proof.
  intros H.
  assert (Ha : 0 <= y / 1000 <= 9) by (Z.div_mod_to_equations; lia).
  assert (Hb : 0 <= y / 100 mod 10 <= 9) by (Z.div_mod_to_equations; lia).
  assert (Hc : 0 <= y / 10 mod 10 <= 9) by (Z.div_mod_to_equations; lia).
  assert (Hd : 0 <= y mod 10 <= 9) by (Z.div_mod_to_equations; lia).
  destruct (digito_hechos_de _ Ha) as (_ & _ & A). destruct (digito_hechos_de _ Hb) as (_ & _ & B).
  destruct (digito_hechos_de _ Hc) as (_ & _ & C). destruct (digito_hechos_de _ Hd) as (_ & _ & D).
  unfold cuatro. cbn [forallb]. rewrite A, B, C, D. reflexivity.
Qed.

Lemma strptime_escrita disp y m d :
  PyDate.valid_date {| PyDate.year := y; PyDate.month := m; PyDate.day := d |} = true ->
  PyDate.strptime_ok (text (escribir disp y m d)) (formato_de disp) = true.
Proof.
  intros Hv. destruct (valid_date_rangos _ _ _ Hv) as (Hy & Hm & Hd).
  unfold PyDate.strptime_ok. rewrite chars_text.
  assert (P : primera
                (PyDate.matches (PyDate.compile (chars (formato_de disp)))
                   {| PyDate.year := 1900; PyDate.month := 1; PyDate.day := 1 |}
                   (escribir disp y m d))
                {| PyDate.year := y; PyDate.month := m; PyDate.day := d |}).
  { destruct disp; cbn [formato_de escribir];
      match goal with
      | |- primera (PyDate.matches ?ts _ _) _ =>
          let ts' := eval vm_compute in ts in change ts with ts'
      end;
      repeat first
        [ apply paso_fin
        | apply paso_literal
        | eapply paso_dia; [first [apply dia_dos_fin | apply dia_dos]; lia|]
        | eapply paso_mes; [first [apply mes_dos_fin | apply mes_dos]; lia|]
        | eapply paso_anio; [first [apply anio_cuatro_fin | apply anio_cuatro]; lia|] ]. }
  destruct P as [o ->]. exact Hv.
Qed.

(** X15.  Every day of the calendar, from year 1 to 9999, written with
    two digits for the day and the month and four for the year, is accepted
    in each of the five layouts the recogniser tries. *)
Theorem toda_fecha_del_calendario_es_valida :
  forall (disp : disposicion) (y m d : Z),
    PyDate.valid_date {| PyDate.year := y; PyDate.month := m; PyDate.day := d |} = true ->
    es_fecha_valida (VStr (text (escribir disp y m d))) = Ok true.
Proof.
  intros disp y m d Hv. destruct (valid_date_rangos _ _ _ Hv) as (Hy & Hm & Hd).
  assert (Hb : forallb (fun c => negb (is_space c)) (escribir disp y m d) = true).
  { destruct disp; cbn [escribir];
      repeat (rewrite forallb_app || cbn [forallb]);
      rewrite ?dos_sin_blancos, ?cuatro_sin_blancos by lia; reflexivity. }
  assert (Hne : String.eqb (text (escribir disp y m d)) "" = false) by (destruct disp; reflexivity).
  unfold es_fecha_valida. rewrite (strip_sin_blancos _ Hb), Hne. f_equal.
  apply existsb_exists. exists (formato_de disp). split.
  - destruct disp; simpl; auto 6.
  - apply strptime_escrita. exact Hv.
Qed.

Lemma toda_fecha_del_calendario_es_valida_witness :
  es_fecha_valida (VStr (text (escribir MesDiaAnio_barra 2024 2 29))) = Ok true.
Proof. apply (toda_fecha_del_calendario_es_valida MesDiaAnio_barra 2024 2 29). reflexivity. Defined.

(** ** Field lists *)

Lemma dict_find_set d k v k' :
  dict_find (dict_set d k v) k' = if String.eqb k' k then Some v else dict_find d k'.
Proof.
  induction d as [|[k0 v0] r IH]; cbn [dict_set dict_find].
  - destruct (String.eqb k' k); reflexivity.
  - destruct (String.eqb_spec k k0) as [->|Hk]; cbn [dict_find].
    + destruct (String.eqb k' k0); reflexivity.
    + rewrite IH. destruct (String.eqb_spec k' k0) as [->|Hk'].
      * destruct (String.eqb_spec k0 k); [congruence|reflexivity].
      * reflexivity.
Qed.

Lemma dict_find_mapa l : forall d k,
  dict_find (fold_left (fun campos kv => dict_set campos (fst kv) (snd kv)) l d) k
  = match find (fun kv => String.eqb k (fst kv)) (rev l) with
    | Some kv => Some (snd kv)
    | None => dict_find d k
    end.
Proof.
  induction l as [|a l IH] using rev_ind; intros d k; [reflexivity|].
  rewrite fold_left_app, rev_app_distr. cbn [fold_left rev app find].
  rewrite dict_find_set. destruct (String.eqb k (fst a)); [reflexivity|]. apply IH.
Qed.

(** X16.  In a field list of objects with a non-empty key and a truthy
    value, a field that is given several times is read with its last
    value, and a field that is not given is read as [None]. *)
Theorem campo_repetido_vale_el_ultimo :
  forall (kn vn : string) (l : list (string * value)) (k : string),
    In kn ["Fields"; "Field"; "Nombre"; "name"] ->
    In vn ["Value"; "Valor"; "value"] ->
    Forall (fun kv => fst kv <> "" /\ truthy (snd kv) = true) l ->
    exists campos,
      cargar_campos (map (par kn vn) l) [] = Ok campos
      /\ dict_get campos k = ultimo_valor k l.
Proof.
  intros kn vn l k Hk Hv H. eexists. split.
  - apply (cargar_campos_pares kn vn l [] Hk Hv H).
  - unfold dict_get, dict_get_or, ultimo_valor. rewrite dict_find_mapa.
    destruct (find _ (rev l)); reflexivity.
Qed.

Lemma campo_repetido_vale_el_ultimo_witness :
  exists campos,
    cargar_campos (map (par "Field" "Value")
                     [("Currency", VStr "USD"); ("Incoterm", VStr "FOB");
                      ("Currency", VStr "EUR")]) [] = Ok campos
    /\ dict_get campos "Currency"
       = ultimo_valor "Currency"
           [("Currency", VStr "USD"); ("Incoterm", VStr "FOB"); ("Currency", VStr "EUR")].
Proof.
  apply (campo_repetido_vale_el_ultimo "Field" "Value"
           [("Currency", VStr "USD"); ("Incoterm", VStr "FOB"); ("Currency", VStr "EUR")]
           "Currency").
  - simpl. auto.
  - simpl. auto.
  - repeat constructor; simpl; discriminate.
Defined.

Lemma cargar_campos_paso d resto campos :
  cargar_campos (VDict d :: resto) campos =
  (campos' <- (if truthy (clave_elegida d)
               then set_item campos (clave_elegida d)
                      (or_ (or_ (dict_get d "Value") (dict_get d "Valor")) (dict_get d "value"))
               else Ok campos) ;;
   cargar_campos resto campos')%py.
Proof. reflexivity. Qed.

(** X17.  A field list is loaded without an exception exactly when each
    of its elements is a mapping whose chosen key is not a non-empty list
    or mapping.  Otherwise the first element that is not so decides: one
    that is no mapping raises AttributeError, one with an unhashable key
    TypeError. *)
Theorem lista_de_campos_cargable :
  forall (fields : list value) (campos : dict),
    (returns (cargar_campos fields campos) <-> forallb cargable fields = true)
    /\ (forallb cargable fields = false ->
        cargar_campos fields campos =
        Raise (match find (fun item => negb (cargable item)) fields with
               | Some (VDict _) => TypeError
               | _ => AttributeError
               end)).
Proof.
  induction fields as [|item resto IH]; intros campos.
  - split; [split; [reflexivity|eexists; reflexivity]|discriminate].
  - destruct item as [|b|n|x|s|l|d];
      try (split; [split; [intros [a Ha]; discriminate Ha|discriminate]|reflexivity]).
    rewrite cargar_campos_paso. cbn [forallb find cargable].
    destruct (clave_elegida d) as [|b|n|x|s|[|i l]|[|p q]] eqn:Ek;
      cbn [truthy set_item negb andb];
      try (destruct (negb _); cbn [bind]; apply IH);
      try (destruct b; cbn [bind]; apply IH);
      try (cbn [bind]; apply IH);
      (split; [split; [intros [a Ha]; discriminate Ha|discriminate]|reflexivity]).
Qed.

Lemma lista_de_campos_cargable_witness :
  cargar_campos [VDict [("Field", VStr "Currency"); ("Value", VStr "USD")]; VInt 1] []
  = Raise AttributeError.
Proof.
  apply (proj2 (lista_de_campos_cargable
                  [VDict [("Field", VStr "Currency"); ("Value", VStr "USD")]; VInt 1] [])).
  reflexivity.
Defined.

(** ** The name of the report file *)

Lemma chars_app a b : chars (a ++ b) = (chars a ++ chars b)%list.
Proof. induction a as [|c a IH]; [reflexivity|]. cbn. f_equal. exact IH. Qed.

Lemma length_chars s : List.length (chars s) = String.length s.
Proof. induction s as [|c s IH]; [reflexivity|]. cbn. f_equal. exact IH. Qed.

Lemma length_append a b : String.length (a ++ b) = (String.length a + String.length b)%nat.
Proof. induction a as [|c a IH]; [reflexivity|]. cbn. f_equal. exact IH. Qed.

Lemma startswith_chars_app p l : startswith_chars (p ++ l) p = true.
Proof.
  induction p as [|c p IH]; [reflexivity|]. cbn [app startswith_chars].
  rewrite Ascii.eqb_refl. exact IH.
Qed.

Lemma endswith_app a b : endswith (a ++ b) b = true.
Proof. unfold endswith. rewrite chars_app, rev_app_distr. apply startswith_chars_app. Qed.

Lemma lower_app a b : lower (a ++ b) = lower a ++ lower b.
Proof.
  unfold lower. rewrite chars_app, map_app.
  rewrite <- (text_chars (text (map lower_char (chars a)) ++ text (map lower_char (chars b)))).
  rewrite chars_app, !chars_text. reflexivity.
Qed.

(** X18.  The report is never written over the invoice file: its name
    differs from the invoice's, always ends in [_resultado.json], and for
    an invoice name that ends in [.json] in any letter case it is the name
    without that ending followed by [_resultado.json]. *)
Theorem informe_no_pisa_la_factura :
  forall archivo : string,
    nombre_salida archivo <> archivo
    /\ endswith (nombre_salida archivo) "_resultado.json" = true
    /\ (forall base ext : string,
          archivo = base ++ ext -> lower ext = ".json" ->
          nombre_salida archivo = base ++ "_resultado.json").
Proof.
  intros archivo. split; [|split].
  - intros E. apply (f_equal String.length) in E. unfold nombre_salida in E.
    rewrite length_append in E.
    destruct (endswith (lower archivo) ".json").
    + unfold slice_until_last in E. rewrite length_text, length_firstn, length_chars in E.
      cbn [String.length] in E. lia.
    + cbn [String.length] in E. lia.
  - unfold nombre_salida. apply endswith_app.
  - intros base ext -> Hext. unfold nombre_salida.
    rewrite lower_app, Hext, endswith_app. f_equal.
    unfold slice_until_last. rewrite chars_app, length_app.
    assert (Hl : List.length (chars ext) = 5%nat).
    { apply (f_equal String.length) in Hext. unfold lower in Hext.
      rewrite length_text, length_map in Hext. exact Hext. }
    rewrite Hl. replace (List.length (chars base) + 5 - 5)%nat with (List.length (chars base) + 0)%nat by lia.
    rewrite firstn_app_2. cbn [firstn]. rewrite app_nil_r. apply text_chars.
Qed.

Lemma informe_no_pisa_la_factura_witness :
  nombre_salida "factura.JSON" = "factura_resultado.json".
Proof.
  apply (proj2 (proj2 (informe_no_pisa_la_factura "factura.JSON")) "factura" ".JSON");
    reflexivity.
Defined.

(** ** The state shown by the web service *)

(** X19.  For every report the validator returns, the state the web
    service shows is the report's own result, [Cumple] or [No cumple]; the
    fallbacks [status] and [Sin estado] are never used. *)
Theorem estado_es_el_resultado :
  forall (data : dict) (r : informe),
    validar_factura data = Ok r ->
    estado_mostrado (informe_valor r) = VStr (resultado r)
    /\ (resultado r = "Cumple" \/ resultado r = "No cumple")
    /\ estado_mostrado (informe_valor r) <> VStr "Sin estado".
Proof.
  intros data r H.
  destruct (validar_factura_inv _ _ H) as (_ & _ & _ & _ & _ & _ & _ & _ & _ & Hr).
  assert (Hc : resultado r = "Cumple" \/ resultado r = "No cumple").
  { rewrite Hr. destruct (_ =? _)%Z; auto. }
  assert (He : estado_mostrado (informe_valor r) = VStr (resultado r)).
  { destruct Hc as [E|E]; unfold estado_mostrado, informe_valor; cbn; rewrite E; reflexivity. }
  split; [exact He|]. split; [exact Hc|].
  rewrite He. destruct Hc as [E|E]; rewrite E; discriminate.
Qed.

Lemma estado_es_el_resultado_witness :
  estado_mostrado (informe_valor informe_factura_minima) = VStr (resultado informe_factura_minima)
  /\ (resultado informe_factura_minima = "Cumple" \/ resultado informe_factura_minima = "No cumple")
  /\ estado_mostrado (informe_valor informe_factura_minima) <> VStr "Sin estado".
Proof. apply (estado_es_el_resultado factura_minima informe_factura_minima). vm_compute. reflexivity. Defined.

(** ** The header reads its fifteen keys only *)

(** X20.  The header report depends on the values under the fifteen
    required keys and on nothing else: two mappings that agree on them,
    whatever other keys they hold and in whatever order, get the same
    report or the same exception. *)
Theorem cabecera_solo_lee_sus_campos :
  forall d d' : dict,
    (forall f : requerido, dict_get d (clave f) = dict_get d' (clave f)) ->
    validar_campos_principales (VDict d) = validar_campos_principales (VDict d').
Proof.
  intros d d' H. unfold validar_campos_principales, get. cbn [bind].
  repeat match goal with
         | |- context [dict_get d ?k] =>
             match goal with
             | _ => rewrite (H Supplier : dict_get d "Supplier" = _)
             | _ => rewrite (H SupplierAddress : dict_get d "SupplierAddress" = _)
             | _ => rewrite (H SupplierTaxID : dict_get d "SupplierTaxID" = _)
             | _ => rewrite (H Customer : dict_get d "Customer" = _)
             | _ => rewrite (H CustomerAddress : dict_get d "CustomerAddress" = _)
             | _ => rewrite (H CustomerTaxID : dict_get d "CustomerTaxID" = _)
             | _ => rewrite (H InvoiceNumber : dict_get d "InvoiceNumber" = _)
             | _ => rewrite (H InvoiceDate : dict_get d "InvoiceDate" = _)
             | _ => rewrite (H Incoterm : dict_get d "Incoterm" = _)
             | _ => rewrite (H PortOfLoading : dict_get d "PortOfLoading" = _)
             | _ => rewrite (H PortOfDischarge : dict_get d "PortOfDischarge" = _)
             | _ => rewrite (H CountryOfOrigin : dict_get d "CountryOfOrigin" = _)
             | _ => rewrite (H PaymentTerms : dict_get d "PaymentTerms" = _)
             | _ => rewrite (H Currency : dict_get d "Currency" = _)
             | _ => rewrite (H TotalInvoiceValue : dict_get d "TotalInvoiceValue" = _)
             end
         end.
  reflexivity.
Qed.

Lemma cabecera_solo_lee_sus_campos_witness :
  validar_campos_principales (VDict (cabecera_completa (VStr "100.00")))
  = validar_campos_principales
      (VDict (("Notas", VStr "fragil") :: rev (cabecera_completa (VStr "100.00")))).
Proof.
  apply (cabecera_solo_lee_sus_campos (cabecera_completa (VStr "100.00"))
           (("Notas", VStr "fragil") :: rev (cabecera_completa (VStr "100.00")))).
  intros f. destruct f; reflexivity.
Defined.
